(** * warehouse-control: authentication, authorisation and audit context

    A shallow embedding of the Go sources of the service
    (internal/middleware, internal/service, internal/repository,
    internal/api/handler, internal/api/response and the SQL migrations)
    together with the properties of the specification that concern them.

    Conventions of the embedding:
    - a function of the service returning [(T, error)] is a function into
      a pair whose last component is an [option error] ([None] is Go's
      [nil]); the zero values the source returns next to an error are kept.
      A function that returns a pointer and an error, exactly one of them
      [nil], returns a sum;
    - code that talks to PostgreSQL threads a [Database] value;
    - a read of the wall clock or of the entropy source is an explicit
      argument of the function that performs it, one argument per read;
    - third-party packages (golang-jwt/jwt/v5, google/uuid, x/crypto/bcrypt)
      are interfaces: their algorithms are written out where the control
      flow matters and their codecs and primitives are class methods. *)

From Stdlib Require Import ZArith QArith Qround Qabs String Ascii List Bool Lia.
From stdpp Require Import base strings pretty gmap list.

Set Warnings "-register-all".

Local Open Scope Z_scope.

(** ** Go errors *)

(** Package-level error values created with [errors.New].  Go compares them
    by identity, so each one is a constructor. *)
Inductive sentinel : Set :=
  (* internal/middleware *)
  | ErrNoToken | ErrInvalidToken | ErrInvalidTokenFormat | ErrExpiredToken
  | ErrRoleNotFound | ErrInvalidRole | ErrAccessDenied
  (* internal/service/user *)
  | ErrUserAlreadyExists | ErrInvalidCredentials
  (* internal/repository/user, internal/repository/item *)
  | ErrUserNotFound | ErrItemNotFound | ErrNoItemsFound
  (* golang-jwt/jwt/v5 *)
  | ErrTokenMalformed | ErrTokenUnverifiable | ErrTokenSignatureInvalid
  | ErrTokenExpired | ErrTokenNotValidYet | ErrTokenInvalidClaims
  | ErrInvalidType | ErrInvalidKeyType | ErrSignatureInvalid
  | NoneSignatureTypeDisallowedError
  (* x/crypto/bcrypt *)
  | ErrMismatchedHashAndPassword.

#[global] Instance sentinel_eq_dec : EqDecision sentinel.
Proof. solve_decision. Defined.

Definition sentinel_text (s : sentinel) : string :=
  match s with
  | ErrNoToken => "missing token"
  | ErrInvalidToken => "invalid token"
  | ErrInvalidTokenFormat => "invalid token format"
  | ErrExpiredToken => "token had expired"
  | ErrRoleNotFound => "role not found in context"
  | ErrInvalidRole => "invalid role type"
  | ErrAccessDenied => "access denied"
  | ErrUserAlreadyExists => "user already exists"
  | ErrInvalidCredentials => "invalid credentials"
  | ErrUserNotFound => "user not found"
  | ErrItemNotFound => "item not found"
  | ErrNoItemsFound => "no items found"
  | ErrTokenMalformed => "token is malformed"
  | ErrTokenUnverifiable => "token is unverifiable"
  | ErrTokenSignatureInvalid => "token signature is invalid"
  | ErrTokenExpired => "token is expired"
  | ErrTokenNotValidYet => "token is not valid yet"
  | ErrTokenInvalidClaims => "token has invalid claims"
  | ErrInvalidType => "invalid type for claim"
  | ErrInvalidKeyType => "key is of invalid type"
  | ErrSignatureInvalid => "signature is invalid"
  | NoneSignatureTypeDisallowedError =>
      "'none' signature type is not allowed"
  | ErrMismatchedHashAndPassword =>
      "crypto/bcrypt: hashedPassword is not the hash of the given password"
  end.

(** An error is a package-level value or a formatted error that carries its
    text and the errors it wraps ([fmt.Errorf] with zero or more [%w]). *)
Inductive error : Type :=
  | errorString (s : sentinel)
  | wrapError (msg : string) (wrapped : list error).

Module errors.

Definition Error (e : error) : string :=
  match e with
  | errorString s => sentinel_text s
  | wrapError msg _ => msg
  end.

(** [errors.Is err target] for a package-level target: walks the tree of
    wrapped errors. *)
Fixpoint Is (err : error) (target : sentinel) : bool :=
  match err with
  | errorString s => bool_decide (s = target)
  | wrapError _ wrapped => existsb (fun e => Is e target) wrapped
  end.

End errors.

Module fmt.

(** [fmt.Errorf(msg)] without a [%w] verb. *)
Definition Errorf (msg : string) : error := wrapError msg [].

(** [fmt.Errorf(prefix + "%w", err)]. *)
Definition Errorf_w (prefix : string) (err : error) : error :=
  wrapError (prefix +:+ errors.Error err) [err].

End fmt.

(** ** Package time *)

Module time.

(** Nanoseconds since the Unix epoch, and nanosecond durations. *)
Definition Time : Type := Z.
Definition Duration : Type := Z.

Definition Second : Duration := 1000000000.

Definition Add (t : Time) (d : Duration) : Time := t + d.

(** [t.Unix()]: whole seconds since the epoch, rounded down. *)
Definition Unix (t : Time) : Z := t / Second.

(** [time.Unix(sec, 0)]. *)
Definition OfUnix (sec : Z) : Time := sec * Second.

Definition Before (t u : Time) : bool := t <? u.

(** The zero [time.Time]: January 1 of year 1, 00:00 UTC. *)
Definition zero : Time := -62135596800 * Second.

End time.

(** ** Package strings *)

Module gostrings.

(** [strings.Split(s, sep)] for a separator of one byte, the only use in the
    sources ([" "]). *)
Fixpoint Split (s : string) (sep : ascii) : list string :=
  match s with
  | EmptyString => [EmptyString]
  | String ch rest =>
      if Ascii.eqb ch sep then EmptyString :: Split rest sep
      else match Split rest sep with
           | [] => [String ch EmptyString]
           | hd :: tl => String ch hd :: tl
           end
  end.


End gostrings.

(** ** Package github.com/google/uuid *)

Module uuid.

(** A UUID is a 128-bit value; [Nil] is the all-zero one. *)
Definition UUID : Type := N.
Definition Nil : UUID := 0%N.

(** Text form of a UUID and its parser. *)
Class Codec : Type := {
  String : UUID -> string;
  Parse : string -> UUID * option error;
}.

End uuid.

(** ** Decoded JSON values ([interface{}] after [encoding/json]) *)

Inductive JSON : Type :=
  | JNull
  | JBool (b : bool)
  | JNumber (q : Q)
  | JString (s : string)
  | JArray (elems : list JSON)
  | JObject (fields : list (string * JSON)).

(** ** Package github.com/golang-jwt/jwt/v5 *)

Module jwt.

Inductive Hash : Set := SHA256 | SHA384 | SHA512.

(** The registered signing methods: HS*, RS*, PS*, ES*, EdDSA and "none". *)
Inductive SigningMethod : Set :=
  | SigningMethodHMAC (h : Hash)
  | SigningMethodRSA (h : Hash)
  | SigningMethodRSAPSS (h : Hash)
  | SigningMethodECDSA (h : Hash)
  | SigningMethodEd25519
  | SigningMethodNone.

Definition SigningMethodHS256 : SigningMethod := SigningMethodHMAC SHA256.

#[global] Instance Hash_eq_dec : EqDecision Hash.
Proof. solve_decision. Defined.
#[global] Instance SigningMethod_eq_dec : EqDecision SigningMethod.
Proof. solve_decision. Defined.

(** [jwt.MapClaims] is [map[string]interface{}]. *)
Abbreviation MapClaims := (gmap string JSON).

Record Token : Type := {
  Method : SigningMethod;
  Claims : MapClaims;
  Valid : bool;
}.

Definition NewWithClaims (method : SigningMethod) (claims : MapClaims) : Token :=
  {| Method := method; Claims := claims; Valid := false |}.

(** The wire format and the hash functions.  Byte slices are strings.
    - [SigningString m c] is [Token.SigningString()]: the encoded header and
      the encoded claims joined by a dot;
    - [EncodeSegment] / [DecodeSegment] are the base64url codec of a
      segment;
    - [ParseUnverified s] splits [s] in three segments, decodes header and
      claims and looks the method up by the header's "alg"; it returns the
      token and the three segments;
    - [hash_Sum h msg] is the digest of [msg] under the hash function [h]
      (crypto/sha256, crypto/sha512). *)
Class Wire : Type := {
  SigningString : SigningMethod -> MapClaims -> string * option error;
  EncodeSegment : string -> string;
  DecodeSegment : string -> option string;
  ParseUnverified : string -> error + (Token * (string * string * string));
  hash_Sum : Hash -> string -> string;
}.

(** *** Package crypto/hmac

    [hmac.New(h, key)] prepares two blocks of [BlockSize] bytes: a key
    longer than a block is replaced by its digest, the key is copied into a
    block of zero bytes, and every byte is xor-ed with 0x36 for the inner
    and 0x5c for the outer block.  The MAC of a message is the digest of
    the outer block followed by the digest of the inner block followed by
    the message. *)

Definition BlockSize (h : Hash) : nat :=
  match h with SHA256 => 64 | SHA384 | SHA512 => 128 end.

Definition xor_byte (a b : ascii) : ascii :=
  let '(Ascii a0 a1 a2 a3 a4 a5 a6 a7) := a in
  let '(Ascii b0 b1 b2 b3 b4 b5 b6 b7) := b in
  Ascii (xorb a0 b0) (xorb a1 b1) (xorb a2 b2) (xorb a3 b3)
        (xorb a4 b4) (xorb a5 b5) (xorb a6 b6) (xorb a7 b7).

Fixpoint xor_bytes (pad : ascii) (block : string) : string :=
  match block with
  | EmptyString => EmptyString
  | String a rest => String (xor_byte a pad) (xor_bytes pad rest)
  end.

(** [copy(dst, src)] into a destination of [n] zero bytes. *)
Fixpoint copy (n : nat) (src : string) : string :=
  match n with
  | O => EmptyString
  | S n' =>
      match src with
      | EmptyString => String Ascii.zero (copy n' EmptyString)
      | String a rest => String a (copy n' rest)
      end
  end.

Definition ipad : ascii := ascii_of_N 54.
Definition opad : ascii := ascii_of_N 92.

(** [newError(message, err, more...)]: wraps [err] and [more], the text is
    the texts joined by ": ". *)
Definition newError (message : string) (err : error) (more : list error) : error :=
  let text := if String.eqb message "" then errors.Error err
              else errors.Error err +:+ ": " +:+ message in
  wrapError (fold_left (fun acc e => acc +:+ ": " +:+ errors.Error e) more text)
            (err :: more).

Fixpoint joinTexts (errs : list error) : string :=
  match errs with
  | [] => ""
  | [e] => errors.Error e
  | e :: rest => errors.Error e +:+ ", " +:+ joinTexts rest
  end.

(** [joinErrors(errs...)]: one error that unwraps to all of [errs]. *)
Definition joinErrors (errs : list error) : error :=
  wrapError (joinTexts errs) errs.

(** [MapClaims.parseNumericDate(key)]: an absent claim and the number zero
    are no date; a number is a date truncated to the second; any other
    value is an error.  The date is in seconds since the epoch. *)
Definition parseNumericDate (m : MapClaims) (key : string) : option Z * option error :=
  match m !! key with
  | None => (None, None)
  | Some (JNumber q) =>
      if Qeq_bool q 0 then (None, None) else (Some (Qfloor q), None)
  | Some _ => (None, Some (newError (key +:+ " is invalid") (errorString ErrInvalidType) []))
  end.

Definition GetExpirationTime (m : MapClaims) := parseNumericDate m "exp".
Definition GetNotBefore (m : MapClaims) := parseNumericDate m "nbf".

(** [Validator.verifyExpiresAt] with no leeway and the claim not required. *)
Definition verifyExpiresAt (claims : MapClaims) (cmp : time.Time) : option error :=
  match GetExpirationTime claims with
  | (_, Some err) => Some err
  | (None, None) => None
  | (Some exp, None) =>
      if time.Before cmp (time.OfUnix exp) then None
      else Some (errorString ErrTokenExpired)
  end.

(** [Validator.verifyNotBefore] with no leeway and the claim not required. *)
Definition verifyNotBefore (claims : MapClaims) (cmp : time.Time) : option error :=
  match GetNotBefore claims with
  | (_, Some err) => Some err
  | (None, None) => None
  | (Some nbf, None) =>
      if negb (time.Before cmp (time.OfUnix nbf)) then None
      else Some (errorString ErrTokenNotValidYet)
  end.

(** [Validator.Validate] of the default validator (no issued-at check, no
    expected audience, issuer or subject): all failures are collected. *)
Definition Validate (now : time.Time) (claims : MapClaims) : option error :=
  let errs := option_list (verifyExpiresAt claims now)
              ++ option_list (verifyNotBefore claims now) in
  match errs with
  | [] => None
  | _ => Some (joinErrors errs)
  end.

Section WithWire.
Context `{Wire}.

(** The block the key is turned into. *)
Definition hmac_block (h : Hash) (key : string) : string :=
  copy (BlockSize h)
       (if (BlockSize h <? String.length key)%nat then hash_Sum h key else key).

(** [hmac.New(h, key)], [Write(msg)], [Sum(nil)]. *)
Definition hmac_Sum (h : Hash) (key msg : string) : string :=
  hash_Sum h (xor_bytes opad (hmac_block h key)
              +:+ hash_Sum h (xor_bytes ipad (hmac_block h key) +:+ msg)).

(** [Method.Verify(signingString, sig, key)] for a key of type [[]byte]:
    the HMAC methods compare the MAC, the asymmetric methods refuse the key
    type and "none" refuses any key but its own marker. *)
Definition Verify (m : SigningMethod) (signingString sig key : string) : option error :=
  match m with
  | SigningMethodHMAC h =>
      if String.eqb sig (hmac_Sum h key signingString) then None
      else Some (errorString ErrSignatureInvalid)
  | SigningMethodNone => Some (errorString NoneSignatureTypeDisallowedError)
  | _ => Some (errorString ErrInvalidKeyType)
  end.

(** [Method.Sign(signingString, key)] for a key of type [[]byte]. *)
Definition Sign (m : SigningMethod) (signingString key : string) : string * option error :=
  match m with
  | SigningMethodHMAC h => (hmac_Sum h key signingString, None)
  | SigningMethodNone => ("", Some (errorString NoneSignatureTypeDisallowedError))
  | _ => ("", Some (errorString ErrInvalidKeyType))
  end.

(** [Token.SignedString(key)]. *)
Definition SignedString (t : Token) (key : string) : string * option error :=
  match SigningString (Method t) (Claims t) with
  | (_, Some err) => ("", Some err)
  | (sstr, None) =>
      match Sign (Method t) sstr key with
      | (_, Some err) => ("", Some err)
      | (sig, None) => (sstr +:+ "." +:+ EncodeSegment sig, None)
      end
  end.

(** [jwt.Parse(tokenString, keyFunc)] with the default parser: decode,
    decode the signature, ask [keyFunc] for the key, verify the signature,
    then validate the claims at the current time [now]. *)
Definition Parse (now : time.Time) (tokenString : string)
    (keyFunc : Token -> string * option error) : error + Token :=
  match ParseUnverified tokenString with
  | inl err => inl err
  | inr (token, (p0, p1, p2)) =>
      match DecodeSegment p2 with
      | None => inl (newError "could not base64 decode signature"
                              (errorString ErrTokenMalformed) [])
      | Some sig =>
          let text := p0 +:+ "." +:+ p1 in
          match keyFunc token with
          | (_, Some err) =>
              inl (newError "error while executing keyfunc"
                            (errorString ErrTokenUnverifiable) [err])
          | (key, None) =>
              match Verify (Method token) text sig key with
              | Some err => inl (newError "" (errorString ErrTokenSignatureInvalid) [err])
              | None =>
                  match Validate now (Claims token) with
                  | Some err => inl (newError "" (errorString ErrTokenInvalidClaims) [err])
                  | None =>
                      inr {| Method := Method token; Claims := Claims token;
                             Valid := true |}
                  end
              end
          end
      end
  end.

End WithWire.

#[global] Arguments hmac_Sum {_} h key msg : simpl never.

End jwt.

(** ** Package golang.org/x/crypto/bcrypt *)

Module bcrypt.

Definition DefaultCost : Z := 10.

(** [GenerateFromPassword salt password cost]: [salt] is what the call reads
    from the entropy source.  [CompareHashAndPassword hash password]. *)
Class Hasher : Type := {
  GenerateFromPassword : string -> string -> Z -> string * option error;
  CompareHashAndPassword : string -> string -> option error;
}.

End bcrypt.

(** ** Package net/http: the status codes the service uses *)

Module http.
Definition StatusOK : Z := 200.
Definition StatusCreated : Z := 201.
Definition StatusBadRequest : Z := 400.
Definition StatusUnauthorized : Z := 401.
Definition StatusForbidden : Z := 403.
Definition StatusNotFound : Z := 404.
Definition StatusConflict : Z := 409.
Definition StatusInternalServerError : Z := 500.
End http.

(** ** Package gin (through wbf/ginext): the request context *)

Module gin.

(** The values the service stores under context keys. *)
Inductive any : Type :=
  | any_string (s : string)
  | any_UUID (u : uuid.UUID).

(** The part of [gin.Context] the service touches: request headers, the
    request body as a decoded JSON document ([None] when it is not JSON),
    the key/value store, the responses written so far, oldest first, and
    whether the chain was aborted. *)
Record Context : Type := {
  Header : gmap string string;
  Body : option JSON;
  Keys : gmap string any;
  Writer : list (Z * JSON);
  aborted : bool;
}.

Definition GetHeader (c : Context) (key : string) : string :=
  default "" (Header c !! key).

(** [c.Get(key)]: the value and whether it exists. *)
Definition Get (c : Context) (key : string) : option any := Keys c !! key.

Definition Set_ (c : Context) (key : string) (value : any) : Context :=
  {| Header := Header c; Body := Body c; Keys := <[key := value]> (Keys c);
     Writer := Writer c; aborted := aborted c |}.

(** [c.JSON(code, obj)]. *)
Definition JSON_ (c : Context) (code : Z) (obj : JSON) : Context :=
  {| Header := Header c; Body := Body c; Keys := Keys c;
     Writer := Writer c ++ [(code, obj)]; aborted := aborted c |}.

Definition Abort (c : Context) : Context :=
  {| Header := Header c; Body := Body c; Keys := Keys c;
     Writer := Writer c; aborted := true |}.

Definition IsAborted (c : Context) : bool := aborted c.

(** A handler runs on the context and on the state [W] of the world behind
    the service. *)
Definition HandlerFunc (W : Type) : Type := Context -> W -> Context * W.

(** A middleware that only touches the context. *)
Definition lift {W : Type} (f : Context -> Context) : HandlerFunc W :=
  fun c w => (f c, w).

(** The handler chain of a route: handlers run in order until one aborts.
    A middleware whose last statement is [c.Next()] hands over to the rest
    of the chain, which is what returning without [Abort] does here. *)
Fixpoint serve {W : Type} (handlers : list (HandlerFunc W)) (c : Context) (w : W)
    : Context * W :=
  match handlers with
  | [] => (c, w)
  | h :: rest =>
      let '(c', w') := h c w in
      if IsAborted c' then (c', w') else serve rest c' w'
  end.

End gin.

(** ** internal/api/response *)

Module response.

(** [Success{Result}] and [Error{Message}] with their JSON field names. *)
Definition Success (result : JSON) : JSON := JObject [("result", result)].
Definition Error (message : string) : JSON := JObject [("error", JString message)].

Definition JSON_ (c : gin.Context) (status : Z) (data : JSON) : gin.Context :=
  gin.JSON_ c status data.

Definition OK (c : gin.Context) (result : JSON) : gin.Context :=
  JSON_ c http.StatusOK (Success result).

Definition Created (c : gin.Context) (result : JSON) : gin.Context :=
  JSON_ c http.StatusCreated (Success result).

Definition Fail (c : gin.Context) (status : Z) (err : error) : gin.Context :=
  JSON_ c status (Error (errors.Error err)).

Definition FailAbort (c : gin.Context) (status : Z) (err : error) : gin.Context :=
  gin.Abort (Fail c status err).

End response.

(** ** internal/middleware/auth.go *)

Module middleware.

Section WithLibraries.
Context `{jwt.Wire} `{uuid.Codec}.

(** The key function handed to [jwt.Parse]: only HMAC methods get the key. *)
Definition keyFunc (secret : string) (token : jwt.Token) : string * option error :=
  match jwt.Method token with
  | jwt.SigningMethodHMAC _ => (secret, None)
  | _ => ("", Some (errorString ErrInvalidToken))
  end.

(** [validateToken]; [now] is the clock read of the claims validator. *)
Definition validateToken (now : time.Time) (tokenStr secret : string)
    : uuid.UUID * string * option error :=
  match jwt.Parse now tokenStr (keyFunc secret) with
  | inl err =>
      if errors.Is err ErrTokenExpired
      then (uuid.Nil, "", Some (errorString ErrExpiredToken))
      else (uuid.Nil, "", Some err)
  | inr token =>
      let claims := jwt.Claims token in
      if negb (jwt.Valid token) then (uuid.Nil, "", Some (errorString ErrInvalidToken))
      else
        match claims !! "user_id" with
        | Some (JString userIDStr) =>
            match uuid.Parse userIDStr with
            | (_, Some _) => (uuid.Nil, "", Some (errorString ErrInvalidToken))
            | (userID, None) =>
                match claims !! "role" with
                | Some (JString role) => (userID, role, None)
                | _ => (uuid.Nil, "", Some (errorString ErrInvalidToken))
                end
            end
        | _ => (uuid.Nil, "", Some (errorString ErrInvalidToken))
        end
  end.

(** [Auth(secret, ttl)]. *)
Definition Auth (now : time.Time) (secret : string) (ttl : time.Duration)
    (c : gin.Context) : gin.Context :=
  let tokenStr := gin.GetHeader c "Authorization" in
  if String.eqb tokenStr "" then
    response.FailAbort c http.StatusUnauthorized (errorString ErrNoToken)
  else
    match gostrings.Split tokenStr " " with
    | [p0; p1] =>
        if negb (String.eqb p0 "Bearer") then
          response.FailAbort c http.StatusUnauthorized (errorString ErrInvalidTokenFormat)
        else
          match validateToken now p1 secret with
          | (_, _, Some err) => response.FailAbort c http.StatusUnauthorized err
          | (userID, role, None) =>
              let c := gin.Set_ c "userID" (gin.any_UUID userID) in
              let c := gin.Set_ c "role" (gin.any_string role) in
              c (* c.Next() *)
          end
    | _ => response.FailAbort c http.StatusUnauthorized (errorString ErrInvalidTokenFormat)
    end.

End WithLibraries.

(** The set the gate builds from its arguments. *)
Definition allowedRoles (roles : list string) : gmap string unit :=
  foldl (fun allowed role => <[role := tt]> allowed) ∅ roles.

(** [RequireRole(roles...)]. *)
Definition RequireRole (roles : list string) (c : gin.Context) : gin.Context :=
  let allowed := allowedRoles roles in
  match gin.Get c "role" with
  | None => response.FailAbort c http.StatusForbidden (errorString ErrRoleNotFound)
  | Some roleVal =>
      match roleVal with
      | gin.any_string role =>
          match allowed !! role with
          | None => response.FailAbort c http.StatusForbidden (errorString ErrAccessDenied)
          | Some _ => c (* c.Next() *)
          end
      | _ => response.FailAbort c http.StatusForbidden (errorString ErrInvalidRole)
      end
  end.

End middleware.

(** ** internal/model and internal/config *)

Module model.

Record User : Type := {
  ID : uuid.UUID;
  Username : string;
  PasswordHash : string;
  Role : string;
  CreatedAt : time.Time;
}.

Module Item.
Record t : Type := {
  ID : uuid.UUID;
  Name : string;
  Description : string;
  Quantity : Z;
  Price : Q;
  CreatedAt : time.Time;
  UpdatedAt : time.Time;
}.
End Item.

Inductive ItemAction : Set := ActionInsert | ActionUpdate | ActionDelete.

Module ItemHistory.
(** [OldData] and [NewData] hold [to_jsonb] of a row of [items]; the row
    itself stands for its JSON image, [None] for SQL NULL. *)
Record t : Type := {
  ID : uuid.UUID;
  ItemID : uuid.UUID;
  Action : ItemAction;
  ChangedBy : uuid.UUID;
  ChangedAt : time.Time;
  OldData : option Item.t;
  NewData : option Item.t;
}.
End ItemHistory.

End model.

Module config.
Record JWT : Type := { Secret : string; TTL : time.Duration }.
Record Config : Type := { JWT_ : JWT }.
End config.

(** ** The PostgreSQL database behind the repositories

    The server as one session sees it: the tables of the migrations, the
    setting [app.current_user_id] of the session, which the triggers read,
    the source of the UUIDs that [gen_random_uuid()] and
    [uuid_generate_v4()] draw, and the value of [NOW()]. *)

Record Database : Type := {
  users : list model.User;
  items : list model.Item.t;
  item_history : list model.ItemHistory.t;
  current_user_id : option string;
  uuids : nat -> uuid.UUID;
  drawn : nat;
  NOW : time.Time;
}.

Module pg.

(** An error raised by the server; the text names the failure. *)
Definition raise (what : string) : error := wrapError ("pq: " +:+ what) [].

Definition with_users (db : Database) (us : list model.User) : Database :=
  {| users := us; items := items db; item_history := item_history db;
     current_user_id := current_user_id db; uuids := uuids db;
     drawn := drawn db; NOW := NOW db |}.

Definition with_items (db : Database) (its : list model.Item.t) : Database :=
  {| users := users db; items := its; item_history := item_history db;
     current_user_id := current_user_id db; uuids := uuids db;
     drawn := drawn db; NOW := NOW db |}.

Definition with_item_history (db : Database) (h : list model.ItemHistory.t) : Database :=
  {| users := users db; items := items db; item_history := h;
     current_user_id := current_user_id db; uuids := uuids db;
     drawn := drawn db; NOW := NOW db |}.

(** [set_config('app.current_user_id', value, false)]: a session setting. *)
Definition set_config (db : Database) (value : string) : Database :=
  {| users := users db; items := items db; item_history := item_history db;
     current_user_id := Some value; uuids := uuids db;
     drawn := drawn db; NOW := NOW db |}.

(** One draw of the UUID generator. *)
Definition draw (db : Database) : uuid.UUID * Database :=
  (uuids db (drawn db),
   {| users := users db; items := items db; item_history := item_history db;
      current_user_id := current_user_id db; uuids := uuids db;
      drawn := S (drawn db); NOW := NOW db |}).

(** The column type [INT]: a value outside the 32-bit range is refused. *)
Definition int4 (z : Z) : bool := (-2147483648 <=? z) && (z <=? 2147483647).

(** Rounding to the nearest integer, ties away from zero, as [NUMERIC]
    rounds. *)
Definition round_half_away (q : Q) : Z :=
  Z.sgn (Qnum q) * Qfloor (Qabs q + (1 # 2)).

(** The column type [NUMERIC(12, 2)]: a value is rounded to two decimal
    places, and refused when the rounded value needs more than ten digits
    before the point. *)
Definition numeric_12_2 (q : Q) : option Q :=
  let cents := round_half_away (q * 100) in
  if Z.abs cents <? 10 ^ 12 then Some (Qred (cents # 100)) else None.

(** The CHECK constraint of [users.role]. *)
Definition role_check (role : string) : bool :=
  String.eqb role "admin" || String.eqb role "manager" || String.eqb role "viewer".

Definition user_by_username (db : Database) (username : string) : option model.User :=
  List.find (fun u => String.eqb (model.Username u) username) (users db).

Definition user_by_id (db : Database) (id : uuid.UUID) : option model.User :=
  List.find (fun u => N.eqb (model.ID u) id) (users db).

Definition username_exists (db : Database) (username : string) : bool :=
  existsb (fun u => String.eqb (model.Username u) username) (users db).

Definition user_id_exists (db : Database) (id : uuid.UUID) : bool :=
  existsb (fun u => N.eqb (model.ID u) id) (users db).

(** [INSERT INTO users (username, password_hash, role) VALUES (...)
    RETURNING id]: the id and the creation time are the column defaults;
    the row must pass the CHECK on [role], the UNIQUE constraint on
    [username] and the primary key.  A failed statement leaves the tables
    as they were. *)
Definition insert_user (username password_hash role : string) (db : Database)
    : (error + uuid.UUID) * Database :=
  let '(id, db1) := draw db in
  if negb (role_check role) then
    (inl (raise "new row for relation users violates check constraint users_role_check"), db1)
  else if username_exists db username then
    (inl (raise "duplicate key value violates unique constraint users_username_key"), db1)
  else if user_id_exists db id then
    (inl (raise "duplicate key value violates unique constraint users_pkey"), db1)
  else
    (inr id,
     with_users db1 (users db ++ [ {| model.ID := id; model.Username := username;
                                      model.PasswordHash := password_hash;
                                      model.Role := role;
                                      model.CreatedAt := NOW db |} ])).

End pg.

(** ** internal/repository/user *)

Module repouser.

(** [Repository.Create]. *)
Definition Create (user : model.User) (db : Database)
    : (uuid.UUID * option error) * Database :=
  match pg.insert_user (model.Username user) (model.PasswordHash user) (model.Role user) db with
  | (inl err, db') => ((uuid.Nil, Some (fmt.Errorf_w "failed to create user: " err)), db')
  | (inr id, db') => ((id, None), db')
  end.

(** [Repository.GetUserByID]: the query does not select [password_hash]. *)
Definition GetUserByID (userID : uuid.UUID) (db : Database) : error + model.User :=
  match pg.user_by_id db userID with
  | None => inl (errorString ErrUserNotFound)
  | Some u => inr {| model.ID := model.ID u; model.Username := model.Username u;
                     model.PasswordHash := ""; model.Role := model.Role u;
                     model.CreatedAt := model.CreatedAt u |}
  end.

(** [Repository.GetUserByUsername]. *)
Definition GetUserByUsername (username : string) (db : Database) : error + model.User :=
  match pg.user_by_username db username with
  | None => inl (errorString ErrUserNotFound)
  | Some u => inr u
  end.

(** [Repository.CheckUserExistsByUsername]. *)
Definition CheckUserExistsByUsername (username : string) (db : Database)
    : bool * option error :=
  (pg.username_exists db username, None).

End repouser.

(** ** internal/service/user *)

Module serviceuser.

(** The [repository] interface of the user service. *)
Class repository (R : Type) : Type := {
  CreateUser : model.User -> R -> (uuid.UUID * option error) * R;
  GetUserByID : uuid.UUID -> R -> error + model.User;
  GetUserByUsername : string -> R -> error + model.User;
  CheckUserExistsByUsername : string -> R -> bool * option error;
}.

Section Service.
Context {R : Type} `{repository R} `{bcrypt.Hasher} `{jwt.Wire} `{uuid.Codec}.

(** [hashPassword]; [salt] is the entropy bcrypt draws. *)
Definition hashPassword (salt password : string) : string * option error :=
  bcrypt.GenerateFromPassword salt password bcrypt.DefaultCost.

(** [verifyPassword]. *)
Definition verifyPassword (password hash : string) : option error :=
  bcrypt.CompareHashAndPassword hash password.

(** The claims [generateToken] builds.  [t1] is the clock read of
    [expTime := time.Now().Add(ttl)], [t2] the later one of
    ["iat": time.Now().Unix()]. *)
Definition tokenClaims (t1 t2 : time.Time) (user : model.User) (ttl : time.Duration)
    : jwt.MapClaims :=
  let expTime := time.Add t1 ttl in
  <["user_id" := JString (uuid.String (model.ID user))]>
  (<["username" := JString (model.Username user)]>
  (<["role" := JString (model.Role user)]>
  (<["exp" := JNumber (inject_Z (time.Unix expTime))]>
  (<["iat" := JNumber (inject_Z (time.Unix t2))]> ∅)))).

(** [generateToken]. *)
Definition generateToken (t1 t2 : time.Time) (user : model.User) (secret : string)
    (ttl : time.Duration) : string * option error :=
  let claims := tokenClaims t1 t2 user ttl in
  let token := jwt.NewWithClaims jwt.SigningMethodHS256 claims in
  jwt.SignedString token secret.

(** [Service.Register]. *)
Definition Register (salt : string) (username role password : string) (r : R)
    : (uuid.UUID * option error) * R :=
  match CheckUserExistsByUsername username r with
  | (_, Some err) => ((uuid.Nil, Some (fmt.Errorf_w "check user exists: " err)), r)
  | (exists_, None) =>
      if exists_ then ((uuid.Nil, Some (errorString ErrUserAlreadyExists)), r)
      else
        match hashPassword salt password with
        | (_, Some err) => ((uuid.Nil, Some (fmt.Errorf_w "hash password: " err)), r)
        | (hashedPassword, None) =>
            let user := {| model.ID := uuid.Nil; model.Username := username;
                           model.PasswordHash := hashedPassword; model.Role := role;
                           model.CreatedAt := time.zero |} in
            match CreateUser user r with
            | ((_, Some err), r') =>
                ((uuid.Nil, Some (fmt.Errorf_w "create user: " err)), r')
            | ((id, None), r') => ((id, None), r')
            end
        end
  end.

(** [Service.Login]; [t1], [t2] are the clock reads of [generateToken]. *)
Definition Login (cfg : config.Config) (t1 t2 : time.Time) (username password : string)
    (r : R) : string * option error :=
  match GetUserByUsername username r with
  | inl err =>
      if errors.Is err ErrUserNotFound
      then ("", Some (errorString ErrInvalidCredentials))
      else ("", Some (fmt.Errorf_w "get user by username: " err))
  | inr user =>
      match verifyPassword password (model.PasswordHash user) with
      | Some _ => ("", Some (errorString ErrInvalidCredentials))
      | None =>
          match generateToken t1 t2 user (config.Secret (config.JWT_ cfg))
                              (config.TTL (config.JWT_ cfg)) with
          | (_, Some err) => ("", Some (fmt.Errorf_w "generate token: " err))
          | (token, None) => (token, None)
          end
      end
  end.

(** [Service.GetUserByID]. *)
Definition GetUserByID_ (userID : uuid.UUID) (r : R) : error + model.User :=
  match GetUserByID userID r with
  | inl err => inl (fmt.Errorf_w "get user by id: " err)
  | inr user => inr user
  end.

End Service.

End serviceuser.

(** ** Package go-playground/validator: the [required] tag on strings *)

Module validator.

Definition newline : string := String (ascii_of_nat 10) "".

Definition fieldError (structName fieldName : string) : string :=
  "Key: '" +:+ structName +:+ "." +:+ fieldName +:+ "' Error:Field validation for '"
  +:+ fieldName +:+ "' failed on the 'required' tag".

Fixpoint joinLines (lines : list string) : string :=
  match lines with
  | [] => ""
  | [l] => l
  | l :: rest => l +:+ newline +:+ joinLines rest
  end.

(** [Validate.Struct] on a struct whose fields are all [required] strings,
    given as (name, value) pairs: the empty ones fail. *)
Definition Struct (structName : string) (fields : list (string * string)) : option error :=
  match List.filter (fun f => String.eqb (snd f) "") fields with
  | [] => None
  | failed => Some (wrapError (joinLines (map (fun f => fieldError structName (fst f)) failed)) [])
  end.

End validator.

(** ** internal/api/handler/auth *)

Module auth.

Record RegisterRequest : Type := {
  Username : string;
  Role : string;
  Password : string;
}.

Module LoginRequest.
Record t : Type := {
  Username : string;
  Password : string;
}.
End LoginRequest.

(** The folded form of an object key, under which [encoding/json] matches
    it with the name of a field when no key matches exactly: ASCII letters
    in lower case, and the two letters outside ASCII that fold to ASCII
    letters, the long s (U+017F, bytes C5 BF) and the Kelvin sign (U+212A,
    bytes E2 84 AA), as "s" and "k". *)
Definition lower (a : ascii) : ascii :=
  let n := N_of_ascii a in
  if ((65 <=? n) && (n <=? 90))%N then ascii_of_N (n + 32) else a.

Fixpoint foldName (s : string) : string :=
  match s with
  | EmptyString => EmptyString
  | String a rest =>
      match rest with
      | String b rest1 =>
          if ((N_of_ascii a =? 197) && (N_of_ascii b =? 191))%N then
            String "s" (foldName rest1)
          else
            match rest1 with
            | String c rest2 =>
                if ((N_of_ascii a =? 226) && (N_of_ascii b =? 132)
                    && (N_of_ascii c =? 170))%N then
                  String "k" (foldName rest2)
                else String (lower a) (foldName rest)
            | EmptyString => String (lower a) (foldName rest)
            end
      | EmptyString => String (lower a) EmptyString
      end
  end.

(** Decoding of one string field of the request object.  The keys that are
    the name of the field, exactly or after folding, are taken in the order
    of the document: [null] leaves the field as it is, a string is stored,
    any other value is a decoding error.  Without such a key the field
    keeps the zero value. *)
Fixpoint decodeString (fields : list (string * JSON)) (key : string) (cur : string)
    : option string :=
  match fields with
  | [] => Some cur
  | (k, v) :: rest =>
      if String.eqb (foldName k) (foldName key) then
        match v with
        | JNull => decodeString rest key cur
        | JString s => decodeString rest key s
        | _ => None
        end
      else decodeString rest key cur
  end.

Definition stringField (fields : list (string * JSON)) (key : string) : option string :=
  decodeString fields key "".

(** The fields of the request body, when it is an object or [null]. *)
Definition bodyFields (c : gin.Context) : option (list (string * JSON)) :=
  match gin.Body c with
  | Some (JObject fields) => Some fields
  | Some JNull => Some []
  | _ => None
  end.

(** [c.ShouldBindJSON(&req)] for [RegisterRequest]. *)
Definition bindRegisterRequest (c : gin.Context) : error + RegisterRequest :=
  match bodyFields c with
  | None => inl (fmt.Errorf "invalid request")
  | Some fields =>
      match stringField fields "username", stringField fields "role",
            stringField fields "password" with
      | Some u, Some r, Some p => inr {| Username := u; Role := r; Password := p |}
      | _, _, _ => inl (fmt.Errorf "json: cannot unmarshal value into Go struct field")
      end
  end.

(** [c.ShouldBindJSON(&req)] for [LoginRequest]. *)
Definition bindLoginRequest (c : gin.Context) : error + LoginRequest.t :=
  match bodyFields c with
  | None => inl (fmt.Errorf "invalid request")
  | Some fields =>
      match stringField fields "username", stringField fields "password" with
      | Some u, Some p => inr {| LoginRequest.Username := u; LoginRequest.Password := p |}
      | _, _ => inl (fmt.Errorf "json: cannot unmarshal value into Go struct field")
      end
  end.

Section Handler.
Context {R : Type} `{serviceuser.repository R} `{bcrypt.Hasher} `{jwt.Wire} `{uuid.Codec}.

(** [Handler.Register]; [salt] is the entropy of the password hash. *)
Definition Register (salt : string) (c : gin.Context) (r : R) : gin.Context * R :=
  match bindRegisterRequest c with
  | inl _ => (response.Fail c http.StatusBadRequest (fmt.Errorf "invalid request body"), r)
  | inr req =>
      match validator.Struct "RegisterRequest"
              [("Username", Username req); ("Role", Role req); ("Password", Password req)] with
      | Some err =>
          (response.Fail c http.StatusBadRequest
             (fmt.Errorf ("validation error: " +:+ errors.Error err)), r)
      | None =>
          match serviceuser.Register salt (Username req) (Role req) (Password req) r with
          | ((_, Some err), r') =>
              if errors.Is err ErrUserAlreadyExists then
                (response.Fail c http.StatusConflict (fmt.Errorf "user already exists"), r')
              else
                (response.Fail c http.StatusInternalServerError
                   (fmt.Errorf "internal server error"), r')
          | ((id, None), r') =>
              (response.Created c (JObject [("id", JString (uuid.String id))]), r')
          end
      end
  end.

(** [Handler.Login]; [t1], [t2] are the clock reads of the token issue. *)
Definition Login (cfg : config.Config) (t1 t2 : time.Time) (c : gin.Context) (r : R)
    : gin.Context * R :=
  match bindLoginRequest c with
  | inl _ => (response.Fail c http.StatusBadRequest (fmt.Errorf "invalid request body"), r)
  | inr req =>
      match validator.Struct "LoginRequest"
              [("Username", LoginRequest.Username req);
               ("Password", LoginRequest.Password req)] with
      | Some err =>
          (response.Fail c http.StatusBadRequest
             (fmt.Errorf ("validation error: " +:+ errors.Error err)), r)
      | None =>
          match serviceuser.Login cfg t1 t2 (LoginRequest.Username req)
                                  (LoginRequest.Password req) r with
          | (_, Some err) =>
              if errors.Is err ErrInvalidCredentials then
                (response.Fail c http.StatusUnauthorized (fmt.Errorf "invalid credentials"), r)
              else if errors.Is err ErrUserNotFound then
                (response.Fail c http.StatusNotFound (fmt.Errorf "user not found"), r)
              else
                (response.Fail c http.StatusInternalServerError
                   (fmt.Errorf "internal server error"), r)
          | (token, None) =>
              (response.OK c (JObject [("token", JString token)]), r)
          end
      end
  end.

End Handler.

End auth.

(** ** migrations: the triggers on [items] *)

Module triggers.

Section WithUUID.
Context `{uuid.Codec}.

(** [current_setting('app.current_user_id')::UUID]: an error when the
    setting was never set in the session or does not read as a UUID. *)
Definition current_setting_uuid (db : Database) : error + uuid.UUID :=
  match current_user_id db with
  | None => inl (pg.raise "unrecognized configuration parameter app.current_user_id")
  | Some text =>
      match uuid.Parse text with
      | (_, Some _) => inl (pg.raise "invalid input syntax for type uuid")
      | (id, None) => inr id
      end
  end.

(** [INSERT INTO item_history(item_id, action, changed_by, old_data,
    new_data)]: [changed_by] references [users (id)]; the id is drawn. *)
Definition insert_history (item_id : uuid.UUID) (action : model.ItemAction)
    (old_data new_data : option model.Item.t) (db : Database) : error + Database :=
  match current_setting_uuid db with
  | inl err => inl err
  | inr changed_by =>
      if negb (pg.user_id_exists db changed_by) then
        inl (pg.raise "insert on table item_history violates foreign key constraint item_history_changed_by_fkey")
      else
        let '(id, db1) := pg.draw db in
        if existsb (fun h => N.eqb (model.ItemHistory.ID h) id) (item_history db) then
          inl (pg.raise "duplicate key value violates unique constraint item_history_pkey")
        else
          inr (pg.with_item_history db1
                 (item_history db ++
                  [ {| model.ItemHistory.ID := id;
                       model.ItemHistory.ItemID := item_id;
                       model.ItemHistory.Action := action;
                       model.ItemHistory.ChangedBy := changed_by;
                       model.ItemHistory.ChangedAt := NOW db;
                       model.ItemHistory.OldData := old_data;
                       model.ItemHistory.NewData := new_data |} ]))
  end.

(** [log_item_insert], [log_item_update], [log_item_delete]. *)
Definition log_item_insert (NEW : model.Item.t) (db : Database) : error + Database :=
  insert_history (model.Item.ID NEW) model.ActionInsert None (Some NEW) db.

Definition log_item_update (OLD NEW : model.Item.t) (db : Database) : error + Database :=
  insert_history (model.Item.ID NEW) model.ActionUpdate (Some OLD) (Some NEW) db.

Definition log_item_delete (OLD : model.Item.t) (db : Database) : error + Database :=
  insert_history (model.Item.ID OLD) model.ActionDelete (Some OLD) None db.

End WithUUID.

End triggers.

(** ** internal/repository/item *)

Module repoitem.

Section Repository.
Context `{uuid.Codec}.

Definition item_by_id (db : Database) (id : uuid.UUID) : option model.Item.t :=
  List.find (fun i => N.eqb (model.Item.ID i) id) (items db).

(** The parameters [quantity] and [price] of a statement as the columns
    [quantity INT] and [price NUMERIC(12, 2)] take them: the price comes
    back as the column stores it.  A statement with a parameter that does
    not fit fails as a whole, before a row is looked for or written. *)
Definition columns (item : model.Item.t) : error + Q :=
  if negb (pg.int4 (model.Item.Quantity item)) then
    inl (pg.raise "value out of range for type integer")
  else
    match pg.numeric_12_2 (model.Item.Price item) with
    | None => inl (pg.raise "numeric field overflow")
    | Some price => inr price
    end.

(** [Repository.CreateItem]: the INSERT, then the AFTER INSERT trigger; an
    error of the trigger undoes the statement. *)
Definition CreateItem (item : model.Item.t) (db : Database)
    : (uuid.UUID * option error) * Database :=
  match columns item with
  | inl err => ((uuid.Nil, Some (fmt.Errorf_w "failed to create item: " err)), db)
  | inr price =>
      let '(id, db1) := pg.draw db in
      let row := {| model.Item.ID := id; model.Item.Name := model.Item.Name item;
                    model.Item.Description := model.Item.Description item;
                    model.Item.Quantity := model.Item.Quantity item;
                    model.Item.Price := price;
                    model.Item.CreatedAt := NOW db; model.Item.UpdatedAt := NOW db |} in
      if existsb (fun i => N.eqb (model.Item.ID i) id) (items db) then
        ((uuid.Nil, Some (fmt.Errorf_w "failed to create item: "
            (pg.raise "duplicate key value violates unique constraint items_pkey"))), db)
      else
        match triggers.log_item_insert row (pg.with_items db1 (items db ++ [row])) with
        | inl err => ((uuid.Nil, Some (fmt.Errorf_w "failed to create item: " err)), db)
        | inr db' => ((id, None), db')
        end
  end.

(** [Repository.GetItemByID]. *)
Definition GetItemByID (itemID : uuid.UUID) (db : Database) : error + model.Item.t :=
  match item_by_id db itemID with
  | None => inl (errorString ErrItemNotFound)
  | Some i => inr i
  end.

(** [Repository.UpdateItem]: no row, no trigger and [ErrItemNotFound];
    otherwise the UPDATE, then the AFTER UPDATE trigger. *)
Definition UpdateItem (item : model.Item.t) (db : Database) : option error * Database :=
  match columns item with
  | inl err => (Some (fmt.Errorf_w "failed to update item: " err), db)
  | inr price =>
      match item_by_id db (model.Item.ID item) with
      | None => (Some (errorString ErrItemNotFound), db)
      | Some OLD =>
          let NEW := {| model.Item.ID := model.Item.ID OLD;
                        model.Item.Name := model.Item.Name item;
                        model.Item.Description := model.Item.Description item;
                        model.Item.Quantity := model.Item.Quantity item;
                        model.Item.Price := price;
                        model.Item.CreatedAt := model.Item.CreatedAt OLD;
                        model.Item.UpdatedAt := NOW db |} in
          let rows := map (fun i => if N.eqb (model.Item.ID i) (model.Item.ID item)
                                    then NEW else i) (items db) in
          match triggers.log_item_update OLD NEW (pg.with_items db rows) with
          | inl err => (Some (fmt.Errorf_w "failed to update item: " err), db)
          | inr db' => (None, db')
          end
      end
  end.

(** [Repository.DeleteItem]: no row, no trigger and [ErrItemNotFound];
    otherwise the BEFORE DELETE trigger, then the DELETE, which cascades to
    the history rows of the item. *)
Definition DeleteItem (itemID : uuid.UUID) (db : Database) : option error * Database :=
  match item_by_id db itemID with
  | None => (Some (errorString ErrItemNotFound), db)
  | Some OLD =>
      match triggers.log_item_delete OLD db with
      | inl err => (Some (fmt.Errorf_w "failed to delete item: " err), db)
      | inr db1 =>
          let db2 := pg.with_items db1
                       (List.filter (fun i => negb (N.eqb (model.Item.ID i) itemID)) (items db1)) in
          (None,
           pg.with_item_history db2
             (List.filter (fun h => negb (N.eqb (model.ItemHistory.ItemID h) itemID))
                          (item_history db2)))
      end
  end.

(** [Repository.SetCurrentUser]. *)
Definition SetCurrentUser (userID : uuid.UUID) (db : Database) : option error * Database :=
  (None, pg.set_config db (uuid.String userID)).

End Repository.

End repoitem.

(** ** internal/service/item *)

Module serviceitem.

(** The [repository] interface of the item service as the service file
    declares it, without the read-only [GetAllItems], [GetItemHistory] and
    [CompareVersions].  [SetCurrentUser] is not part of the interface. *)
Class repository (R : Type) : Type := {
  CreateItem : model.Item.t -> R -> (uuid.UUID * option error) * R;
  GetItemByID : uuid.UUID -> R -> error + model.Item.t;
  UpdateItem : model.Item.t -> R -> option error * R;
  DeleteItem : uuid.UUID -> R -> option error * R;
}.

Section Service.
Context {R : Type} `{repository R}.

(** [Service.Create]. *)
Definition Create (name description : string) (quantity : Z) (price : Q) (r : R)
    : (uuid.UUID * option error) * R :=
  let item := {| model.Item.ID := uuid.Nil; model.Item.Name := name;
                 model.Item.Description := description;
                 model.Item.Quantity := quantity; model.Item.Price := price;
                 model.Item.CreatedAt := time.zero; model.Item.UpdatedAt := time.zero |} in
  match CreateItem item r with
  | ((_, Some err), r') => ((uuid.Nil, Some (fmt.Errorf_w "create item: " err)), r')
  | ((id, None), r') => ((id, None), r')
  end.

(** [Service.Update]. *)
Definition Update (itemID : uuid.UUID) (name description : string) (quantity : Z)
    (price : Q) (r : R) : option error * R :=
  let item := {| model.Item.ID := itemID; model.Item.Name := name;
                 model.Item.Description := description;
                 model.Item.Quantity := quantity; model.Item.Price := price;
                 model.Item.CreatedAt := time.zero; model.Item.UpdatedAt := time.zero |} in
  match UpdateItem item r with
  | (Some err, r') => (Some (fmt.Errorf_w "update item: " err), r')
  | (None, r') => (None, r')
  end.

(** [Service.Delete]. *)
Definition Delete (itemID : uuid.UUID) (r : R) : option error * R :=
  match DeleteItem itemID r with
  | (Some err, r') => (Some (fmt.Errorf_w "delete item: " err), r')
  | (None, r') => (None, r')
  end.

(** [Service.GetByID]. *)
Definition GetByID (itemID : uuid.UUID) (r : R) : error + model.Item.t :=
  match GetItemByID itemID r with
  | inl err => inl (fmt.Errorf_w "get item by id: " err)
  | inr item => inr item
  end.

End Service.

End serviceitem.

(** ** cmd/warehouse-control: the repositories behind the services *)

Module main.

(** [userService := serviceuser.NewService(userRepo, cfg)].  The repository
    file names its insert [Create]; it is what stands behind the
    interface's [CreateUser]. *)
#[global] Instance userRepo : serviceuser.repository Database := {|
  serviceuser.CreateUser := repouser.Create;
  serviceuser.GetUserByID := repouser.GetUserByID;
  serviceuser.GetUserByUsername := repouser.GetUserByUsername;
  serviceuser.CheckUserExistsByUsername := repouser.CheckUserExistsByUsername;
|}.

(** [itemService := serviceitem.NewService(itemRepo)]. *)
#[global] Instance itemRepo `{uuid.Codec} : serviceitem.repository Database := {|
  serviceitem.CreateItem := repoitem.CreateItem;
  serviceitem.GetItemByID := repoitem.GetItemByID;
  serviceitem.UpdateItem := repoitem.UpdateItem;
  serviceitem.DeleteItem := repoitem.DeleteItem;
|}.

End main.

(** ** internal/api/handler/user *)

Module userhandler.

(** The [service] interface of the user handler. *)
Class service (W : Type) : Type := {
  GetUserByID : uuid.UUID -> W -> error + model.User;
}.

Section Handler.
Context {W : Type} `{service W} `{uuid.Codec}.

(** [Handler.GetByID]; [userIDStr] is [c.Param("id")], which the route
    match hands over.  The body is a map with the keys "id", "username"
    and "role", written out in the order of the keys. *)
Definition GetByID (userIDStr : string) (c : gin.Context) (w : W) : gin.Context * W :=
  match uuid.Parse userIDStr with
  | (_, Some _) =>
      (response.Fail c http.StatusBadRequest (fmt.Errorf "invalid user ID"), w)
  | (userID, None) =>
      match GetUserByID userID w with
      | inl err =>
          (response.Fail c http.StatusInternalServerError
             (fmt.Errorf_w "failed to get user: " err), w)
      | inr user =>
          (response.OK c
             (JObject [("id", JString (uuid.String (model.ID user)));
                       ("role", JString (model.Role user));
                       ("username", JString (model.Username user))]), w)
      end
  end.

End Handler.

End userhandler.

(** The user service is what satisfies the interface of the user handler. *)
#[global] Instance userService {R : Type} `{serviceuser.repository R}
    : userhandler.service R := {|
  userhandler.GetUserByID := serviceuser.GetUserByID_;
|}.

(** ** internal/api/handler/item *)

Module itemhandler.

(** The [service] interface of the item handler, as the handler file
    declares it: the mutating methods take the id of the acting user. *)
Class service (W : Type) : Type := {
  Create : uuid.UUID -> string -> string -> Z -> Q -> W -> (uuid.UUID * option error) * W;
  GetByID : uuid.UUID -> W -> error + model.Item.t;
  GetAll : string -> W -> list model.Item.t * option error;
  Update : uuid.UUID -> uuid.UUID -> string -> string -> Z -> Q -> W -> option error * W;
  Delete : uuid.UUID -> uuid.UUID -> W -> option error * W;
}.

Record CreateRequest : Type := {
  Name : string;
  Description : string;
  Quantity : Z;
  Price : Q;
}.

Module UpdateRequest.
Record t : Type := {
  Name : string;
  Description : string;
  Quantity : Z;
  Price : Q;
}.
End UpdateRequest.

(** Decoding and validation of the two request bodies:
    [c.ShouldBindJSON(&req)] and [h.validator.Struct(req)]. *)
Class Decoder : Type := {
  bindCreateRequest : gin.Context -> error + CreateRequest;
  validateCreateRequest : CreateRequest -> option error;
  bindUpdateRequest : gin.Context -> error + UpdateRequest.t;
  validateUpdateRequest : UpdateRequest.t -> option error;
}.

Section Handler.
Context {W : Type} `{service W} `{Decoder} `{uuid.Codec}.

(** [Handler.getUserAndItemIDFromContext]; [itemIDStr] is [c.Param("id")].
    The context comes back with the response the function wrote, if any. *)
Definition getUserAndItemIDFromContext (itemIDStr : string) (c : gin.Context)
    : (uuid.UUID * uuid.UUID * bool) * gin.Context :=
  match uuid.Parse itemIDStr with
  | (_, Some _) =>
      ((uuid.Nil, uuid.Nil, false),
       response.Fail c http.StatusBadRequest (fmt.Errorf "invalid item ID"))
  | (itemID, None) =>
      match gin.Get c "userID" with
      | None =>
          ((uuid.Nil, uuid.Nil, false),
           response.Fail c http.StatusUnauthorized (fmt.Errorf "userID not found in context"))
      | Some (gin.any_UUID userID) => ((userID, itemID, true), c)
      | Some _ =>
          ((uuid.Nil, uuid.Nil, false),
           response.Fail c http.StatusUnauthorized (fmt.Errorf "invalid userID type"))
      end
  end.

(** [Handler.Create]. *)
Definition Create_ (c : gin.Context) (w : W) : gin.Context * W :=
  match bindCreateRequest c with
  | inl _ => (response.Fail c http.StatusBadRequest (fmt.Errorf "invalid request body"), w)
  | inr req =>
      match validateCreateRequest req with
      | Some err =>
          (response.Fail c http.StatusBadRequest
             (fmt.Errorf ("validation error: " +:+ errors.Error err)), w)
      | None =>
          match gin.Get c "userID" with
          | None =>
              (response.Fail c http.StatusUnauthorized
                 (fmt.Errorf "userID not found in context"), w)
          | Some (gin.any_UUID userID) =>
              match Create userID (Name req) (Description req) (Quantity req) (Price req) w with
              | ((_, Some _), w') =>
                  (response.Fail c http.StatusInternalServerError
                     (fmt.Errorf "failed to create item"), w')
              | ((id, None), w') =>
                  (response.Created c (JObject [("id", JString (uuid.String id))]), w')
              end
          | Some _ =>
              (response.Fail c http.StatusUnauthorized (fmt.Errorf "invalid userID type"), w)
          end
      end
  end.

(** [Handler.Update]. *)
Definition Update_ (itemIDStr : string) (c : gin.Context) (w : W) : gin.Context * W :=
  match bindUpdateRequest c with
  | inl _ => (response.Fail c http.StatusBadRequest (fmt.Errorf "invalid request body"), w)
  | inr req =>
      match validateUpdateRequest req with
      | Some err =>
          (response.Fail c http.StatusBadRequest
             (fmt.Errorf ("validation error: " +:+ errors.Error err)), w)
      | None =>
          match getUserAndItemIDFromContext itemIDStr c with
          | ((_, _, false), c') => (c', w)
          | ((userID, itemID, true), c') =>
              match Update userID itemID (UpdateRequest.Name req)
                      (UpdateRequest.Description req) (UpdateRequest.Quantity req)
                      (UpdateRequest.Price req) w with
              | (Some err, w') =>
                  if errors.Is err ErrItemNotFound then
                    (response.Fail c' http.StatusNotFound err, w')
                  else
                    (response.Fail c' http.StatusInternalServerError
                       (fmt.Errorf "failed to update item"), w')
              | (None, w') =>
                  (response.OK c' (JObject [("id", JString (uuid.String itemID))]), w')
              end
          end
      end
  end.

(** [Handler.Delete]. *)
Definition Delete_ (itemIDStr : string) (c : gin.Context) (w : W) : gin.Context * W :=
  match getUserAndItemIDFromContext itemIDStr c with
  | ((_, _, false), c') => (c', w)
  | ((userID, itemID, true), c') =>
      match Delete userID itemID w with
      | (Some err, w') =>
          if errors.Is err ErrItemNotFound then
            (response.Fail c' http.StatusNotFound err, w')
          else
            (response.Fail c' http.StatusInternalServerError
               (fmt.Errorf "failed to delete item"), w')
      | (None, w') =>
          (response.OK c' (JObject [("id", JString (uuid.String itemID))]), w')
      end
  end.

End Handler.

End itemhandler.

(** ** internal/api/router

    The handler chains of the routes that change items as [router.New]
    registers them: the middleware of the group at the time of the registration, then
    the handlers of the route.  The chains start after the middleware of
    the engine (CORS, logger, recovery), which is code of other packages.
    [now] is the time of the request; [id] is the text behind [:id]. *)

Module router.

Section Routes.
Context {W : Type} `{itemhandler.service W} `{itemhandler.Decoder}
        `{jwt.Wire} `{uuid.Codec}.
Variable cfg : config.Config.
Variable now : time.Time.

(** [middleware.Auth(cfg.JWT.Secret, cfg.JWT.TTL)]. *)
Definition auth : gin.HandlerFunc W :=
  gin.lift (middleware.Auth now (config.Secret (config.JWT_ cfg))
              (config.TTL (config.JWT_ cfg))).

(** POST /api/items. *)
Definition POST_items : list (gin.HandlerFunc W) :=
  [auth; gin.lift (middleware.RequireRole ["admin"; "manager"]); itemhandler.Create_].

(** PUT /api/items/:id. *)
Definition PUT_items_id (id : string) : list (gin.HandlerFunc W) :=
  [auth; gin.lift (middleware.RequireRole ["admin"; "manager"]); itemhandler.Update_ id].

(** DELETE /api/items/:id. *)
Definition DELETE_items_id (id : string) : list (gin.HandlerFunc W) :=
  [auth; gin.lift (middleware.RequireRole ["admin"]); itemhandler.Delete_ id].

End Routes.

End router.

(** ** Notions the properties are stated with *)

(** [c'] is [c] after one response was written: the status and the body
    are appended to the responses written so far, and keys, headers and
    body of the request are as they were. *)
Definition writes (c c' : gin.Context) (status : Z) (body : JSON) : Prop :=
  gin.Writer c' = gin.Writer c ++ [(status, body)]
  /\ gin.Keys c' = gin.Keys c
  /\ gin.Header c' = gin.Header c
  /\ gin.Body c' = gin.Body c.

Section Notions.
Context `{jwt.Wire}.

(** The string under a claim, if the claim is there and is a string. *)
Definition claimString (claims : jwt.MapClaims) (key : string) : option string :=
  match claims !! key with
  | Some (JString s) => Some s
  | _ => None
  end.

(** The wire format writes the token of these claims and reads it back:
    the signing string and the MAC are produced, and the token string
    decodes to the method, the claims, the signing string and the MAC. *)
Definition reads_back (m : jwt.SigningMethod) (claims : jwt.MapClaims) (key : string)
    : Prop :=
  exists sstr sig p0 p1 p2 valid,
    jwt.SigningString m claims = (sstr, None)
    /\ jwt.Sign m sstr key = (sig, None)
    /\ jwt.ParseUnverified (sstr +:+ "." +:+ jwt.EncodeSegment sig)
       = inr ({| jwt.Method := m; jwt.Claims := claims; jwt.Valid := valid |},
              (p0, p1, p2))
    /\ p0 +:+ "." +:+ p1 = sstr
    /\ jwt.DecodeSegment p2 = Some sig.

End Notions.

(** ** A small instance of the library interfaces

    Enough of the three libraries to run the service on concrete requests:
    UUIDs in their canonical text form, a wire format that writes header
    and claims out as text and reads tokens back from a book of known
    ones, a digest that writes its input out, and a password hash that
    keeps the password next to its salt. *)

Module sample.

(** *** UUID text *)

Definition hexdigit (d : N) : ascii :=
  match String.get (N.to_nat d) "0123456789abcdef" with
  | Some ch => ch
  | None => "0"%char
  end.

Fixpoint hex (digits : nat) (n : N) : string :=
  match digits with
  | O => ""
  | S d => hex d (n / 16)%N +:+ String (hexdigit (n mod 16)%N) ""
  end.

Definition unhex (ch : ascii) : option N :=
  let n := N_of_ascii ch in
  if ((48 <=? n) && (n <=? 57))%N then Some (n - 48)%N
  else if ((97 <=? n) && (n <=? 102))%N then Some (n - 87)%N
  else if ((65 <=? n) && (n <=? 70))%N then Some (n - 55)%N
  else None.

Fixpoint parseHex (s : string) (acc : N) : option N :=
  match s with
  | EmptyString => Some acc
  | String ch rest =>
      match unhex ch with
      | Some d => parseHex rest (acc * 16 + d)%N
      | None => None
      end
  end.

Definition uuidString (u : uuid.UUID) : string :=
  let h := hex 32 u in
  String.substring 0 8 h +:+ "-" +:+ String.substring 8 4 h +:+ "-" +:+
  String.substring 12 4 h +:+ "-" +:+ String.substring 16 4 h +:+ "-" +:+
  String.substring 20 12 h.

Definition uuidParse (s : string) : uuid.UUID * option error :=
  if negb (Nat.eqb (String.length s) 36) then
    (uuid.Nil, Some (fmt.Errorf "invalid UUID length"))
  else if negb (String.eqb (String.substring 8 1 s) "-" && String.eqb (String.substring 13 1 s) "-"
                && String.eqb (String.substring 18 1 s) "-"
                && String.eqb (String.substring 23 1 s) "-") then
    (uuid.Nil, Some (fmt.Errorf "invalid UUID format"))
  else
    match parseHex (String.substring 0 8 s +:+ String.substring 9 4 s +:+
                    String.substring 14 4 s +:+ String.substring 19 4 s +:+
                    String.substring 24 12 s) 0%N with
    | Some n => (n, None)
    | None => (uuid.Nil, Some (fmt.Errorf "invalid UUID format"))
    end.

Definition uuidCodec : uuid.Codec :=
  {| uuid.String := uuidString; uuid.Parse := uuidParse |}.

(** *** Token wire format *)

Definition alg (m : jwt.SigningMethod) : string :=
  match m with
  | jwt.SigningMethodHMAC jwt.SHA256 => "HS256"
  | jwt.SigningMethodHMAC jwt.SHA384 => "HS384"
  | jwt.SigningMethodHMAC jwt.SHA512 => "HS512"
  | jwt.SigningMethodRSA jwt.SHA256 => "RS256"
  | jwt.SigningMethodRSA jwt.SHA384 => "RS384"
  | jwt.SigningMethodRSA jwt.SHA512 => "RS512"
  | jwt.SigningMethodRSAPSS jwt.SHA256 => "PS256"
  | jwt.SigningMethodRSAPSS jwt.SHA384 => "PS384"
  | jwt.SigningMethodRSAPSS jwt.SHA512 => "PS512"
  | jwt.SigningMethodECDSA jwt.SHA256 => "ES256"
  | jwt.SigningMethodECDSA jwt.SHA384 => "ES384"
  | jwt.SigningMethodECDSA jwt.SHA512 => "ES512"
  | jwt.SigningMethodEd25519 => "EdDSA"
  | jwt.SigningMethodNone => "none"
  end.

Definition renderValue (v : JSON) : string :=
  match v with
  | JNull => "null"
  | JBool true => "true"
  | JBool false => "false"
  | JNumber q => pretty (Qnum q) +:+ "/" +:+ pretty (Zpos (Qden q))
  | JString s => "'" +:+ s +:+ "'"
  | JArray _ => "[]"
  | JObject _ => "{}"
  end.

Definition renderClaims (claims : jwt.MapClaims) : string :=
  fold_right (fun kv acc => fst kv +:+ "=" +:+ renderValue (snd kv) +:+ ";" +:+ acc) ""
             (map_to_list claims).

Definition signingString (m : jwt.SigningMethod) (claims : jwt.MapClaims)
    : string * option error :=
  (alg m +:+ "." +:+ renderClaims claims, None).

(** The three segments of a token string, when it has exactly two dots. *)
Definition segments (s : string) : option (string * string * string) :=
  match gostrings.Split s "." with
  | [p0; p1; p2] => Some (p0, p1, p2)
  | _ => None
  end.

(** Tokens are read back by looking their first two segments up among the
    signing strings of a book of known (method, claims) pairs. *)
Definition parseUnverified (book : list (jwt.SigningMethod * jwt.MapClaims)) (s : string)
    : error + (jwt.Token * (string * string * string)) :=
  match segments s with
  | None => inl (jwt.newError "token contains an invalid number of segments"
                              (errorString ErrTokenMalformed) [])
  | Some (p0, p1, p2) =>
      match List.find (fun e => String.eqb (fst (signingString (fst e) (snd e)))
                                           (p0 +:+ "." +:+ p1)) book with
      | None => inl (jwt.newError "could not JSON decode claim"
                                  (errorString ErrTokenMalformed) [])
      | Some (m, claims) => inr (jwt.NewWithClaims m claims, (p0, p1, p2))
      end
  end.

Definition hashName (h : jwt.Hash) : string :=
  match h with jwt.SHA256 => "256" | jwt.SHA384 => "384" | jwt.SHA512 => "512" end.

(** A digest that writes its input out after the name of the hash. *)
Definition sum (h : jwt.Hash) (msg : string) : string :=
  hashName h +:+ "#" +:+ msg.

(** Segments must not hold a dot or a space: the signature is written with
    every byte in decimal. *)
Fixpoint encodeSegment (s : string) : string :=
  match s with
  | EmptyString => ""
  | String ch rest => pretty (N_of_ascii ch) +:+ "_" +:+ encodeSegment rest
  end.

Fixpoint decodeDigits (s : string) (cur : option N) : option string :=
  match s with
  | EmptyString => match cur with None => Some "" | Some _ => None end
  | String ch rest =>
      if Ascii.eqb ch "_" then
        match cur with
        | Some n => if (n <? 256)%N
                    then option_map (String (ascii_of_N n)) (decodeDigits rest None)
                    else None
        | None => None
        end
      else
        let d := N_of_ascii ch in
        if ((48 <=? d) && (d <=? 57))%N
        then decodeDigits rest (Some (default 0%N cur * 10 + (d - 48))%N)
        else None
  end.

Definition decodeSegment (s : string) : option string := decodeDigits s None.

Definition wire (book : list (jwt.SigningMethod * jwt.MapClaims)) : jwt.Wire :=
  {| jwt.SigningString := signingString;
     jwt.EncodeSegment := encodeSegment;
     jwt.DecodeSegment := decodeSegment;
     jwt.ParseUnverified := parseUnverified book;
     jwt.hash_Sum := sum |}.

(** *** Password hash *)

Definition hasher : bcrypt.Hasher :=
  {| bcrypt.GenerateFromPassword := fun salt password cost =>
       ("$toy$" +:+ pretty cost +:+ "$" +:+ salt +:+ "$" +:+ password, None);
     bcrypt.CompareHashAndPassword := fun hash password =>
       match gostrings.Split hash "$" with
       | [_; _; _; _; p] =>
           if String.eqb p password then None
           else Some (errorString ErrMismatchedHashAndPassword)
       | _ => Some (fmt.Errorf "crypto/bcrypt: hashedSecret too short to be a bcrypted password")
       end |}.

(** *** A database and a configuration *)

Definition emptyDatabase : Database :=
  {| users := []; items := []; item_history := []; current_user_id := None;
     uuids := fun n => N.of_nat (S n); drawn := 0%nat; NOW := 1700000000 * time.Second |}.

Definition cfg : config.Config :=
  {| config.JWT_ := {| config.Secret := "s3cret"; config.TTL := 3600 * time.Second |} |}.

(** *** A user and her tokens *)

Definition alice : model.User :=
  {| model.ID := 1%N; model.Username := "alice";
     model.PasswordHash := "$toy$10$salt$pw1"; model.Role := "admin";
     model.CreatedAt := 1700000000 * time.Second |}.

Definition issuedAt : time.Time := 1700000000 * time.Second + 250000000.

Definition aliceClaims : jwt.MapClaims :=
  @serviceuser.tokenClaims uuidCodec issuedAt issuedAt alice (config.TTL (config.JWT_ cfg)).

(** Claims without a role, as a holder of the secret could sign them. *)
Definition roleless : jwt.MapClaims := delete "role" aliceClaims.

(** Alice's claims with the expiry date at second 0 of the epoch. *)
Definition epochClaims : jwt.MapClaims := <["exp" := JNumber 0]> aliceClaims.

Definition book : list (jwt.SigningMethod * jwt.MapClaims) :=
  [(jwt.SigningMethodHS256, aliceClaims); (jwt.SigningMethodHS256, roleless);
   (jwt.SigningMethodNone, aliceClaims); (jwt.SigningMethodHS256, epochClaims)].

Definition aliceWire : jwt.Wire := wire book.

(** The token the service issues to alice at [issuedAt]. *)
Definition aliceToken : string :=
  Eval vm_compute in
    fst (@serviceuser.generateToken aliceWire uuidCodec issuedAt issuedAt alice
           "s3cret" (config.TTL (config.JWT_ cfg))).

(** The same claims signed under another secret. *)
Definition forgedToken : string :=
  Eval vm_compute in
    fst (@serviceuser.generateToken aliceWire uuidCodec issuedAt issuedAt alice
           "gu3ss" (config.TTL (config.JWT_ cfg))).

(** The server's secret followed by a zero byte, and alice's claims signed
    under it. *)
Definition paddedSecret : string := String.append "s3cret" (String Ascii.zero EmptyString).

Definition paddedToken : string :=
  Eval vm_compute in
    fst (@serviceuser.generateToken aliceWire uuidCodec issuedAt issuedAt alice
           paddedSecret (config.TTL (config.JWT_ cfg))).

(** The claims that expire at second 0 signed under the server's secret. *)
Definition epochToken : string :=
  Eval vm_compute in
    fst (@jwt.SignedString aliceWire
           (jwt.NewWithClaims jwt.SigningMethodHS256 epochClaims) "s3cret").

(** The role-less claims signed under the server's secret. *)
Definition rolelessToken : string :=
  Eval vm_compute in
    fst (@jwt.SignedString aliceWire
           (jwt.NewWithClaims jwt.SigningMethodHS256 roleless) "s3cret").

(** A time within the life of alice's token, and one after it. *)
Definition soonAfter : time.Time := issuedAt + 5 * time.Second.
Definition muchLater : time.Time := issuedAt + 7200 * time.Second.

(** The database after alice registered on the empty one. *)
Definition aliceDatabase : Database :=
  snd (@serviceuser.Register Database main.userRepo hasher
         "salt" "alice" "admin" "pw1" emptyDatabase).

(** *** Requests *)

Definition request (header : gmap string string) (body : option JSON)
    (keys : gmap string gin.any) : gin.Context :=
  {| gin.Header := header; gin.Body := body; gin.Keys := keys;
     gin.Writer := []; gin.aborted := false |}.



Definition bearer (token : string) : gin.Context :=
  request (<["Authorization" := "Bearer " +:+ token]> ∅) None ∅.

Definition viewerContext : gin.Context :=
  request ∅ None (<["role" := gin.any_string "viewer"]> (<["userID" := gin.any_UUID 2%N]> ∅)).

Definition managerContext : gin.Context :=
  request ∅ None (<["role" := gin.any_string "manager"]> (<["userID" := gin.any_UUID 3%N]> ∅)).

End sample.

(** ** Notions of the further properties *)


(** The constraints the migrations put on the tables: usernames and ids of
    users are unique and every role passes the CHECK; ids of items and of
    history rows are unique; every history row references a user through
    [changed_by] and an item through [item_id]. *)
Definition schema_holds (db : Database) : Prop :=
  NoDup (map model.Username (users db))
  /\ NoDup (map model.ID (users db))
  /\ Forall (fun u => pg.role_check (model.Role u) = true) (users db)
  /\ NoDup (map model.Item.ID (items db))
  /\ NoDup (map model.ItemHistory.ID (item_history db))
  /\ Forall (fun h => model.ItemHistory.ChangedBy h ∈ map model.ID (users db)
                      /\ model.ItemHistory.ItemID h ∈ map model.Item.ID (items db))
            (item_history db).

(** The context [Auth] hands on for an accepted token. *)
Definition bound (c : gin.Context) (userID : uuid.UUID) (role : string) : gin.Context :=
  gin.Set_ (gin.Set_ c "userID" (gin.any_UUID userID)) "role" (gin.any_string role).

(** The status of the last response written on a context. *)
Definition lastStatus (c : gin.Context) : option Z :=
  option_map fst (last (gin.Writer c)).


(** A stock of one item: alice, the user of [sample.aliceDatabase], is set
    as the session user and creates a bolt. *)
Module stock.

Definition bolt : model.Item.t :=
  {| model.Item.ID := uuid.Nil; model.Item.Name := "bolt"; model.Item.Description := "";
     model.Item.Quantity := 5; model.Item.Price := 1;
     model.Item.CreatedAt := time.zero; model.Item.UpdatedAt := time.zero |}.

Definition nut : model.Item.t :=
  {| model.Item.ID := 2%N; model.Item.Name := "nut"; model.Item.Description := "M4";
     model.Item.Quantity := 7; model.Item.Price := 1995 # 1000;
     model.Item.CreatedAt := time.zero; model.Item.UpdatedAt := time.zero |}.

Definition database : Database :=
  snd (@repoitem.CreateItem sample.uuidCodec bolt
         (snd (@repoitem.SetCurrentUser sample.uuidCodec 1%N sample.aliceDatabase))).

End stock.

(** The request carries a bearer token that [validateToken] accepts at
    [now] under [secret], for [userID] and [role]. *)
Definition accepted `{jwt.Wire} `{uuid.Codec} (now : time.Time) (secret : string)
    (c : gin.Context) (userID : uuid.UUID) (role : string) : Prop :=
  exists tok,
    gostrings.Split (gin.GetHeader c "Authorization") " " = ["Bearer"; tok]
    /\ middleware.validateToken now tok secret = (userID, role, None).

(** A service behind the item handler that records the mutating calls it
    receives, and a decoder of request bodies that takes the name and the
    description of an item and insists on a name. *)
Module recorder.

Inductive call : Type :=
  | created (userID : uuid.UUID) (name : string)
  | updated (userID itemID : uuid.UUID) (name : string)
  | deleted (userID itemID : uuid.UUID).

Definition service : itemhandler.service (list call) := {|
  itemhandler.Create userID name _ _ _ w := ((uuid.Nil, None), w ++ [created userID name]);
  itemhandler.GetByID _ _ := inl (errorString ErrItemNotFound);
  itemhandler.GetAll _ _ := ([], None);
  itemhandler.Update userID itemID name _ _ _ w := (None, w ++ [updated userID itemID name]);
  itemhandler.Delete userID itemID w := (None, w ++ [deleted userID itemID]);
|}.

Definition decoder : itemhandler.Decoder := {|
  itemhandler.bindCreateRequest c :=
    match auth.bodyFields c with
    | Some fields =>
        match auth.stringField fields "name", auth.stringField fields "description" with
        | Some n, Some d =>
            inr {| itemhandler.Name := n; itemhandler.Description := d;
                   itemhandler.Quantity := 1; itemhandler.Price := 1 |}
        | _, _ => inl (fmt.Errorf "json: cannot unmarshal value into Go struct field")
        end
    | None => inl (fmt.Errorf "invalid request")
    end;
  itemhandler.validateCreateRequest req :=
    if String.eqb (itemhandler.Name req) "" then Some (fmt.Errorf "Name is required")
    else None;
  itemhandler.bindUpdateRequest c :=
    match auth.bodyFields c with
    | Some fields =>
        match auth.stringField fields "name", auth.stringField fields "description" with
        | Some n, Some d =>
            inr {| itemhandler.UpdateRequest.Name := n;
                   itemhandler.UpdateRequest.Description := d;
                   itemhandler.UpdateRequest.Quantity := 1;
                   itemhandler.UpdateRequest.Price := 1 |}
        | _, _ => inl (fmt.Errorf "json: cannot unmarshal value into Go struct field")
        end
    | None => inl (fmt.Errorf "invalid request")
    end;
  itemhandler.validateUpdateRequest req :=
    if String.eqb (itemhandler.UpdateRequest.Name req) "" then
      Some (fmt.Errorf "Name is required")
    else None;
|}.

(** A request with alice's token and a body that names a nut. *)
Definition nutRequest : gin.Context :=
  sample.request (<["Authorization" := "Bearer " +:+ sample.aliceToken]> ∅)
    (Some (JObject [("name", JString "nut")])) ∅.

End recorder.

(** * Properties *)

(** ** Auxiliary facts about the library model *)

Lemma Is_newError message err more target :
  errors.Is (jwt.newError message err more) target
  = errors.Is err target || existsb (fun e => errors.Is e target) more.
Proof. reflexivity. Qed.

Lemma Is_joinErrors errs target :
  errors.Is (jwt.joinErrors errs) target = existsb (fun e => errors.Is e target) errs.
Proof. reflexivity. Qed.

(** A date that has passed makes the validator report expiry, whatever else
    it reports. *)
Lemma Validate_expired now claims exp :
  jwt.GetExpirationTime claims = (Some exp, None) ->
  time.OfUnix exp <= now ->
  exists err, jwt.Validate now claims = Some err
              /\ errors.Is err ErrTokenExpired = true.
Proof.
  intros Hexp Hpast. unfold jwt.Validate, jwt.verifyExpiresAt. rewrite Hexp.
  assert (Hb : time.Before now (time.OfUnix exp) = false).
  { unfold time.Before. apply Z.ltb_ge. exact Hpast. }
  rewrite Hb. simpl.
  eexists. split; [reflexivity|]. rewrite Is_joinErrors. reflexivity.
Qed.

(** A date still ahead, and no not-before claim, pass the validator. *)
Lemma Validate_fresh now claims :
  (forall exp, jwt.GetExpirationTime claims = (Some exp, None) -> now < time.OfUnix exp) ->
  (jwt.GetExpirationTime claims).2 = None ->
  claims !! "nbf" = None ->
  jwt.Validate now claims = None.
Proof.
  intros Hexp Hok Hnbf. unfold jwt.Validate, jwt.verifyExpiresAt, jwt.verifyNotBefore.
  assert (Hn : jwt.GetNotBefore claims = (None, None)).
  { unfold jwt.GetNotBefore, jwt.parseNumericDate. by rewrite Hnbf. }
  rewrite Hn.
  destruct (jwt.GetExpirationTime claims) as [[exp|] [err|]] eqn:E; simpl in *;
    try discriminate; try reflexivity.
  specialize (Hexp exp eq_refl).
  unfold time.Before. apply Z.ltb_lt in Hexp. by rewrite Hexp.
Qed.

(** ** Auxiliary facts about [strings.Split] *)



(** ** Auxiliary facts about the role gate *)

Lemma allowed_foldl roles (acc : gmap string unit) role :
  is_Some (foldl (fun allowed r => <[r := tt]> allowed) acc roles !! role)
  <-> role ∈ roles \/ is_Some (acc !! role).
Proof.
  revert acc. induction roles as [|r roles IH]; intros acc; simpl.
  - split; [auto|]. intros [Hin|Hacc]; [|done]. by apply elem_of_nil in Hin.
  - rewrite IH, elem_of_cons. destruct (decide (r = role)) as [->|Hne].
    + rewrite lookup_insert_eq. split; intros _; [by left; left | right; eauto].
    + rewrite lookup_insert_ne by done. split.
      * intros [?|?]; [left; by right | by right].
      * intros [[?|?]|?]; [congruence | by left | by right].
Qed.

Lemma allowedRoles_member roles role :
  is_Some (middleware.allowedRoles roles !! role) <-> role ∈ roles.
Proof.
  unfold middleware.allowedRoles. rewrite allowed_foldl, lookup_empty.
  split; [intros [?|[? ?]]; [done|discriminate] | by left].
Qed.

Lemma serve_abort {W : Type} (f : gin.Context -> gin.Context)
    (rest : list (gin.HandlerFunc W)) c w :
  gin.IsAborted (f c) = true ->
  gin.serve (gin.lift f :: rest) c w = (f c, w).
Proof. intros Ha. simpl. unfold gin.lift. by rewrite Ha. Qed.

Lemma serve_pass {W : Type} (f : gin.Context -> gin.Context)
    (rest : list (gin.HandlerFunc W)) c w :
  gin.IsAborted (f c) = false ->
  gin.serve (gin.lift f :: rest) c w = gin.serve rest (f c) w.
Proof. intros Ha. simpl. unfold gin.lift. by rewrite Ha. Qed.

(** ** The role gate *)

(** C3.  The gate built from a list of permitted roles.  With no role
    bound in the context it writes one response, 403 with the body
    [{"error": "role not found in context"}], and aborts; with a role bound
    that is not in the list it writes 403 with [{"error": "access denied"}]
    and aborts, whatever the role is; in both cases no later handler of the
    chain runs: the chain ends with the context of the gate and the state
    behind the service as it was.  With a role bound that is in the list it
    leaves the context as it is and the rest of the chain runs.  (A value
    under "role" that is not a string is denied as well.) *)
Theorem RequireRole_gate (roles : list string) (c : gin.Context) :
  (gin.Get c "role" = None ->
     writes c (middleware.RequireRole roles c) 403
       (JObject [("error", JString "role not found in context")])
     /\ gin.aborted (middleware.RequireRole roles c) = true
     /\ forall (W : Type) (rest : list (gin.HandlerFunc W)) (w : W),
          gin.serve (gin.lift (middleware.RequireRole roles) :: rest) c w
          = (middleware.RequireRole roles c, w))
  /\ (forall role, gin.Get c "role" = Some (gin.any_string role) -> role ∉ roles ->
        writes c (middleware.RequireRole roles c) 403
          (JObject [("error", JString "access denied")])
        /\ gin.aborted (middleware.RequireRole roles c) = true
        /\ forall (W : Type) (rest : list (gin.HandlerFunc W)) (w : W),
             gin.serve (gin.lift (middleware.RequireRole roles) :: rest) c w
             = (middleware.RequireRole roles c, w))
  /\ (forall role, gin.Get c "role" = Some (gin.any_string role) -> role ∈ roles ->
        middleware.RequireRole roles c = c
        /\ forall (W : Type) (rest : list (gin.HandlerFunc W)) (w : W),
             gin.aborted c = false ->
             gin.serve (gin.lift (middleware.RequireRole roles) :: rest) c w
             = gin.serve rest c w)
  /\ (forall u, gin.Get c "role" = Some (gin.any_UUID u) ->
        writes c (middleware.RequireRole roles c) 403
          (JObject [("error", JString "invalid role type")])
        /\ gin.aborted (middleware.RequireRole roles c) = true
        /\ forall (W : Type) (rest : list (gin.HandlerFunc W)) (w : W),
             gin.serve (gin.lift (middleware.RequireRole roles) :: rest) c w
             = (middleware.RequireRole roles c, w)).
Proof.
  split; [|split; [|split]].
  - intros Hget.
    assert (E : middleware.RequireRole roles c
                = response.FailAbort c http.StatusForbidden (errorString ErrRoleNotFound)).
    { unfold middleware.RequireRole. by rewrite Hget. }
    rewrite E. split; [by repeat split|]. split; [reflexivity|].
    intros W rest w. rewrite <- E. apply serve_abort. by rewrite E.
  - intros role Hget Hnot.
    assert (E : middleware.RequireRole roles c
                = response.FailAbort c http.StatusForbidden (errorString ErrAccessDenied)).
    { unfold middleware.RequireRole. rewrite Hget.
      destruct (middleware.allowedRoles roles !! role) as [u|] eqn:E; [|done].
      exfalso. apply Hnot, allowedRoles_member. eauto. }
    rewrite E. split; [by repeat split|]. split; [reflexivity|].
    intros W rest w. rewrite <- E. apply serve_abort. by rewrite E.
  - intros role Hget Hin.
    assert (Hsame : middleware.RequireRole roles c = c).
    { unfold middleware.RequireRole. rewrite Hget.
      apply allowedRoles_member in Hin as [u Hu]. by rewrite Hu. }
    split; [exact Hsame|].
    intros W rest w Hc. rewrite serve_pass; rewrite Hsame; done.
  - intros u Hget.
    assert (E : middleware.RequireRole roles c
                = response.FailAbort c http.StatusForbidden (errorString ErrInvalidRole)).
    { unfold middleware.RequireRole. by rewrite Hget. }
    rewrite E. split; [by repeat split|]. split; [reflexivity|].
    intros W rest w. rewrite <- E. apply serve_abort. by rewrite E.
Qed.

Lemma RequireRole_gate_witness :
  writes sample.viewerContext
    (middleware.RequireRole ["admin"; "manager"] sample.viewerContext) 403
    (JObject [("error", JString "access denied")])
  /\ gin.aborted (middleware.RequireRole ["admin"; "manager"] sample.viewerContext) = true
  /\ forall (W : Type) (rest : list (gin.HandlerFunc W)) (w : W),
       gin.serve (gin.lift (middleware.RequireRole ["admin"; "manager"]) :: rest)
         sample.viewerContext w
       = (middleware.RequireRole ["admin"; "manager"] sample.viewerContext, w).
Proof.
  destruct (RequireRole_gate ["admin"; "manager"] sample.viewerContext)
    as (_ & Hdeny & _).
  apply (Hdeny "viewer").
  - reflexivity.
  - intros Hin. repeat (apply elem_of_cons in Hin as [Hin|Hin]; [discriminate|]).
    by apply elem_of_nil in Hin.
Defined.

(** ** Token verification *)

Section Verification.
Context `{jwt.Wire} `{uuid.Codec}.

(** What a successful [jwt.Parse] went through. *)
Lemma Parse_inv now tokenString keyFunc token' :
  jwt.Parse now tokenString keyFunc = inr token' ->
  exists token p0 p1 p2 sig key,
    jwt.ParseUnverified tokenString = inr (token, (p0, p1, p2))
    /\ jwt.DecodeSegment p2 = Some sig
    /\ keyFunc token = (key, None)
    /\ jwt.Verify (jwt.Method token) (p0 +:+ "." +:+ p1) sig key = None
    /\ jwt.Validate now (jwt.Claims token) = None
    /\ token' = {| jwt.Method := jwt.Method token; jwt.Claims := jwt.Claims token;
                   jwt.Valid := true |}.
Proof.
  unfold jwt.Parse. intros HP.
  destruct (jwt.ParseUnverified tokenString) as [e|[token [[p0 p1] p2]]] eqn:EU;
    [discriminate|].
  destruct (jwt.DecodeSegment p2) as [sig|] eqn:ED; [|discriminate].
  destruct (keyFunc token) as [key [e|]] eqn:EK; [discriminate|].
  destruct (jwt.Verify (jwt.Method token) (p0 +:+ "." +:+ p1) sig key) eqn:EV;
    [discriminate|].
  destruct (jwt.Validate now (jwt.Claims token)) eqn:EC; [discriminate|].
  injection HP as <-. by exists token, p0, p1, p2, sig, key.
Qed.

(** What a successful [validateToken] read from the token. *)
Lemma validateToken_inv now tokenStr secret userID role :
  middleware.validateToken now tokenStr secret = (userID, role, None) ->
  exists token userIDStr,
    jwt.Parse now tokenStr (middleware.keyFunc secret) = inr token
    /\ jwt.Claims token !! "user_id" = Some (JString userIDStr)
    /\ uuid.Parse userIDStr = (userID, None)
    /\ jwt.Claims token !! "role" = Some (JString role).
Proof.
  unfold middleware.validateToken. intros HV.
  destruct (jwt.Parse now tokenStr (middleware.keyFunc secret)) as [e|token] eqn:EP.
  { destruct (errors.Is e ErrTokenExpired); discriminate. }
  destruct (jwt.Valid token); simpl in HV; [|discriminate].
  destruct (jwt.Claims token !! "user_id") as [[| | |userIDStr| |]|] eqn:EU;
    try discriminate.
  destruct (uuid.Parse userIDStr) as [u [e|]] eqn:EI; [discriminate|].
  destruct (jwt.Claims token !! "role") as [[| | |r| |]|] eqn:ER; try discriminate.
  injection HV as <- <-. by exists token, userIDStr.
Qed.

(** An error comes with the nil UUID and the empty role. *)
Lemma validateToken_error now tokenStr secret userID role err :
  middleware.validateToken now tokenStr secret = (userID, role, Some err) ->
  userID = uuid.Nil /\ role = "".
Proof.
  unfold middleware.validateToken. intros HV.
  destruct (jwt.Parse now tokenStr (middleware.keyFunc secret)) as [e|token].
  { destruct (errors.Is e ErrTokenExpired); by injection HV as <- <- _. }
  destruct (jwt.Valid token); simpl in HV; [|by injection HV as <- <- _].
  destruct (jwt.Claims token !! "user_id") as [[| | |userIDStr| |]|];
    try by injection HV as <- <- _.
  destruct (uuid.Parse userIDStr) as [u [e|]]; [by injection HV as <- <- _|].
  destruct (jwt.Claims token !! "role") as [[| | |r| |]|];
    try by injection HV as <- <- _.
  discriminate.
Qed.

(** A token that fails [jwt.Parse] fails [validateToken]. *)
Lemma validateToken_Parse_error now tokenStr secret e :
  jwt.Parse now tokenStr (middleware.keyFunc secret) = inl e ->
  exists err, middleware.validateToken now tokenStr secret = (uuid.Nil, "", Some err).
Proof.
  intros HP. unfold middleware.validateToken. rewrite HP.
  destruct (errors.Is e ErrTokenExpired); eauto.
Qed.

(** A token with a valid HMAC signature and a date that has passed. *)
Lemma expired_token_rejected now tokenStr secret token p0 p1 p2 h exp :
  jwt.ParseUnverified tokenStr = inr (token, (p0, p1, p2)) ->
  jwt.Method token = jwt.SigningMethodHMAC h ->
  jwt.DecodeSegment p2 = Some (jwt.hmac_Sum h secret (p0 +:+ "." +:+ p1)) ->
  jwt.GetExpirationTime (jwt.Claims token) = (Some exp, None) ->
  time.OfUnix exp <= now ->
  middleware.validateToken now tokenStr secret
    = (uuid.Nil, "", Some (errorString ErrExpiredToken)).
Proof.
  intros HU HM HD HE Hpast.
  destruct (Validate_expired now _ exp HE Hpast) as (err & HV & His).
  unfold middleware.validateToken, jwt.Parse. rewrite HU, HD.
  unfold middleware.keyFunc, jwt.Verify. rewrite HM, String.eqb_refl, HV.
  rewrite Is_newError. simpl. by rewrite His.
Qed.

(** C2, as amended.  A token that decodes, is signed with an HMAC method
    under the server's secret and carries as "exp" a number other than
    zero whose second is not after the current time is answered with
    [ErrExpiredToken] (next to the nil UUID and the empty role): not with
    [ErrInvalidToken], not with success. *)
Theorem validateToken_expired now tokenStr secret token p0 p1 p2 h (q : Q) :
  jwt.ParseUnverified tokenStr = inr (token, (p0, p1, p2)) ->
  jwt.Method token = jwt.SigningMethodHMAC h ->
  jwt.DecodeSegment p2 = Some (jwt.hmac_Sum h secret (p0 +:+ "." +:+ p1)) ->
  jwt.Claims token !! "exp" = Some (JNumber q) ->
  ~ (q == 0)%Q ->
  time.OfUnix (Qfloor q) <= now ->
  middleware.validateToken now tokenStr secret
    = (uuid.Nil, "", Some (errorString ErrExpiredToken)).
Proof.
  intros HU HM HD HE Hq Hpast.
  apply (expired_token_rejected now tokenStr secret token p0 p1 p2 h (Qfloor q));
    try assumption.
  unfold jwt.GetExpirationTime, jwt.parseNumericDate. rewrite HE.
  destruct (Qeq_bool q 0) eqn:E; [|reflexivity].
  by apply Qeq_bool_iff in E.
Qed.

(** A key shorter than a block and the same key followed by a zero byte
    fill the same block, so they give the same MAC on every message. *)
Lemma copy_zero_byte n key :
  jwt.copy n (key +:+ String Ascii.zero EmptyString) = jwt.copy n key.
Proof.
  revert key. induction n as [|n IH]; intros key; [reflexivity|].
  destruct key as [|a key]; simpl; [reflexivity|]. by rewrite IH.
Qed.

Lemma hmac_Sum_zero_byte h key msg :
  (String.length key < jwt.BlockSize h)%nat ->
  jwt.hmac_Sum h (key +:+ String Ascii.zero EmptyString) msg = jwt.hmac_Sum h key msg.
Proof.
  intros Hlen. unfold jwt.hmac_Sum, jwt.hmac_block.
  assert (Hl : String.length (key +:+ String Ascii.zero EmptyString)
               = S (String.length key)).
  { clear. induction key as [|a key IH]; simpl; [reflexivity | by rewrite IH]. }
  rewrite Hl.
  replace (jwt.BlockSize h <? S (String.length key))%nat with false
    by (symmetry; apply Nat.ltb_ge; lia).
  replace (jwt.BlockSize h <? String.length key)%nat with false
    by (symmetry; apply Nat.ltb_ge; lia).
  by rewrite copy_zero_byte.
Qed.

(** A signature that is not the MAC under the server's secret. *)
Lemma bad_signature_rejected now tokenStr secret token p0 p1 p2 h sig :
  jwt.ParseUnverified tokenStr = inr (token, (p0, p1, p2)) ->
  jwt.Method token = jwt.SigningMethodHMAC h ->
  jwt.DecodeSegment p2 = Some sig ->
  sig <> jwt.hmac_Sum h secret (p0 +:+ "." +:+ p1) ->
  exists err,
    middleware.validateToken now tokenStr secret = (uuid.Nil, "", Some err)
    /\ errors.Is err ErrTokenSignatureInvalid = true.
Proof.
  intros HU HM HD Hsig.
  unfold middleware.validateToken, jwt.Parse. rewrite HU, HD.
  unfold middleware.keyFunc, jwt.Verify. rewrite HM.
  destruct (String.eqb sig _) eqn:E; [by apply String.eqb_eq in E|].
  rewrite Is_newError. simpl. eexists. split; reflexivity.
Qed.

(** C4, as amended.  A token whose method is an HMAC method and whose
    signature is not the MAC of its first two segments under the server's
    secret is answered with an error that wraps [ErrTokenSignatureInvalid],
    next to the nil UUID and the empty role, whatever claims it carries;
    so is a token signed under another secret, unless that secret gives
    the same MAC.  A token whose method is not an HMAC method ("none", RSA,
    RSA-PSS, ECDSA, EdDSA) is answered with an error whatever claims and
    signature it carries. *)
Theorem validateToken_rejects_foreign now tokenStr secret token p0 p1 p2 :
  jwt.ParseUnverified tokenStr = inr (token, (p0, p1, p2)) ->
  (forall h sig,
      jwt.Method token = jwt.SigningMethodHMAC h ->
      jwt.DecodeSegment p2 = Some sig ->
      sig <> jwt.hmac_Sum h secret (p0 +:+ "." +:+ p1) ->
      exists err,
        middleware.validateToken now tokenStr secret = (uuid.Nil, "", Some err)
        /\ errors.Is err ErrTokenSignatureInvalid = true)
  /\ (forall h secret',
        jwt.Method token = jwt.SigningMethodHMAC h ->
        jwt.DecodeSegment p2 = Some (jwt.hmac_Sum h secret' (p0 +:+ "." +:+ p1)) ->
        jwt.hmac_Sum h secret' (p0 +:+ "." +:+ p1)
          <> jwt.hmac_Sum h secret (p0 +:+ "." +:+ p1) ->
        exists err,
          middleware.validateToken now tokenStr secret = (uuid.Nil, "", Some err)
          /\ errors.Is err ErrTokenSignatureInvalid = true)
  /\ ((forall h, jwt.Method token <> jwt.SigningMethodHMAC h) ->
      exists err,
        middleware.validateToken now tokenStr secret = (uuid.Nil, "", Some err)
        /\ errors.Is err ErrTokenExpired = false).
Proof.
  intros HU. split; [|split].
  - intros h sig. by apply bad_signature_rejected.
  - intros h secret' HM HD Hne. by eapply bad_signature_rejected.
  - intros Hnot. unfold middleware.validateToken, jwt.Parse. rewrite HU.
    destruct (jwt.DecodeSegment p2) as [sig|]; [|eexists; split; reflexivity].
    unfold middleware.keyFunc.
    destruct (jwt.Method token) as [h| | | | |] eqn:HM;
      try (eexists; split; reflexivity).
    by destruct (Hnot h).
Qed.

(** C10.  For a token that [jwt.Parse] accepts: if "user_id" is absent, is
    not a string or does not parse as a UUID, or if "role" is absent or
    not a string, the answer is the nil UUID, the empty role and
    [ErrInvalidToken].  So a success comes from a token whose "user_id" is
    a string that parses to the returned UUID and whose "role" is the
    returned string, and a context that [Auth] lets through holds a UUID
    under "userID" and a string under "role". *)
Theorem validateToken_claims now tokenStr secret :
  (forall token,
      jwt.Parse now tokenStr (middleware.keyFunc secret) = inr token ->
      (forall s, claimString (jwt.Claims token) "user_id" = Some s ->
                 (uuid.Parse s).2 <> None)
      \/ claimString (jwt.Claims token) "role" = None ->
      middleware.validateToken now tokenStr secret
        = (uuid.Nil, "", Some (errorString ErrInvalidToken)))
  /\ (forall userID role,
        middleware.validateToken now tokenStr secret = (userID, role, None) ->
        exists token userIDStr,
          jwt.Parse now tokenStr (middleware.keyFunc secret) = inr token
          /\ claimString (jwt.Claims token) "user_id" = Some userIDStr
          /\ uuid.Parse userIDStr = (userID, None)
          /\ claimString (jwt.Claims token) "role" = Some role)
  /\ (forall ttl c,
        gin.IsAborted c = false ->
        gin.IsAborted (middleware.Auth now secret ttl c) = false ->
        exists userID role,
          gin.Get (middleware.Auth now secret ttl c) "userID" = Some (gin.any_UUID userID)
          /\ gin.Get (middleware.Auth now secret ttl c) "role" = Some (gin.any_string role)).
Proof.
  split; [|split].
  - intros token HP Hbad. unfold middleware.validateToken. rewrite HP.
    destruct (Parse_inv _ _ _ _ HP) as (tk & ? & ? & ? & ? & ? & _ & _ & _ & _ & _ & ->).
    simpl. unfold claimString in Hbad. simpl in Hbad.
    destruct (jwt.Claims tk !! "user_id") as [[| | |userIDStr| |]|] eqn:EU; try done.
    destruct (uuid.Parse userIDStr) as [u [e|]] eqn:EI; [done|].
    destruct (jwt.Claims tk !! "role") as [[| | |r| |]|] eqn:ER; try done.
    exfalso. destruct Hbad as [Hbad|Hbad]; [|discriminate].
    apply (Hbad userIDStr eq_refl). by rewrite EI.
  - intros userID role HV.
    destruct (validateToken_inv _ _ _ _ _ HV) as (token & s & HP & HU & HI & HR).
    exists token, s. unfold claimString. by rewrite HU, HR.
  - intros ttl c Hc Hpass. unfold middleware.Auth in *.
    destruct (String.eqb (gin.GetHeader c "Authorization") ""); [discriminate|].
    destruct (gostrings.Split _ _) as [|p0 [|p1 [|? ?]]]; try discriminate.
    destruct (negb (String.eqb p0 "Bearer")); [discriminate|].
    destruct (middleware.validateToken now p1 secret) as [[userID role] [e|]];
      [discriminate|].
    exists userID, role. unfold gin.Get, gin.Set_. simpl. split.
    + rewrite lookup_insert_ne by done. by rewrite lookup_insert_eq.
    + by rewrite lookup_insert_eq.
Qed.

End Verification.

Lemma validateToken_expired_witness :
  @middleware.validateToken sample.aliceWire sample.uuidCodec
     sample.muchLater sample.aliceToken "s3cret"
  = (uuid.Nil, "", Some (errorString ErrExpiredToken)).
Proof.
  eapply (@validateToken_expired sample.aliceWire sample.uuidCodec sample.muchLater
            sample.aliceToken "s3cret")
    with (token := jwt.NewWithClaims jwt.SigningMethodHS256 sample.aliceClaims)
         (h := jwt.SHA256) (q := 1700003600%Q).
  - vm_compute. reflexivity.
  - reflexivity.
  - vm_compute. reflexivity.
  - vm_compute. reflexivity.
  - vm_compute. discriminate.
  - vm_compute. discriminate.
Defined.

(** C2, the claim as stated fails: second 0 of the epoch has passed, yet
    the token that carries it as "exp", signed under the server's secret,
    is accepted long after, with alice's id and role: the claims reader
    takes the number zero for no expiry date. *)
Lemma validateToken_accepts_epoch_expiry :
  sample.epochClaims !! "exp" = Some (JNumber 0)
  /\ time.OfUnix 0 <= sample.muchLater
  /\ @jwt.SignedString sample.aliceWire
       (jwt.NewWithClaims jwt.SigningMethodHS256 sample.epochClaims) "s3cret"
     = (sample.epochToken, None)
  /\ @middleware.validateToken sample.aliceWire sample.uuidCodec
       sample.muchLater sample.epochToken "s3cret"
     = (1%N, "admin", None).
Proof.
  split; [vm_compute; reflexivity|]. split; [vm_compute; discriminate|].
  split; vm_compute; reflexivity.
Qed.

Lemma validateToken_rejects_foreign_witness :
  exists err,
    @middleware.validateToken sample.aliceWire sample.uuidCodec
       sample.soonAfter sample.forgedToken "s3cret"
    = (uuid.Nil, "", Some err)
    /\ errors.Is err ErrTokenSignatureInvalid = true.
Proof.
  destruct (@validateToken_rejects_foreign sample.aliceWire sample.uuidCodec
              sample.soonAfter sample.forgedToken "s3cret"
              (jwt.NewWithClaims jwt.SigningMethodHS256 sample.aliceClaims)
              "HS256"
              (@sample.renderClaims sample.aliceClaims)
              (sample.encodeSegment
                 (@jwt.hmac_Sum sample.aliceWire jwt.SHA256 "gu3ss"
                    ("HS256" +:+ "." +:+ sample.renderClaims sample.aliceClaims))))
    as (_ & Hother & _).
  - vm_compute. reflexivity.
  - apply (Hother jwt.SHA256 "gu3ss").
    + reflexivity.
    + vm_compute. reflexivity.
    + vm_compute. discriminate.
Defined.

(** C4, the claim as stated fails: the server's secret followed by a zero
    byte is another secret, yet the token that [generateToken] signs under
    it is accepted under the server's secret, with alice's id and role. *)
Lemma validateToken_accepts_padded_secret :
  sample.paddedSecret <> "s3cret"
  /\ @serviceuser.generateToken sample.aliceWire sample.uuidCodec
       sample.issuedAt sample.issuedAt sample.alice sample.paddedSecret
       (config.TTL (config.JWT_ sample.cfg))
     = (sample.paddedToken, None)
  /\ @middleware.validateToken sample.aliceWire sample.uuidCodec
       sample.soonAfter sample.paddedToken "s3cret"
     = (1%N, "admin", None).
Proof.
  split; [discriminate|]. split; vm_compute; reflexivity.
Qed.

Lemma validateToken_claims_witness :
  @middleware.validateToken sample.aliceWire sample.uuidCodec
     sample.soonAfter sample.rolelessToken "s3cret"
  = (uuid.Nil, "", Some (errorString ErrInvalidToken)).
Proof.
  apply (@validateToken_claims sample.aliceWire sample.uuidCodec sample.soonAfter
           sample.rolelessToken "s3cret")
    with (token := {| jwt.Method := jwt.SigningMethodHS256;
                      jwt.Claims := sample.roleless; jwt.Valid := true |}).
  - vm_compute. reflexivity.
  - right. vm_compute. reflexivity.
Defined.

(** ** The authentication middleware *)

Section AuthMiddleware.
Context `{jwt.Wire} `{uuid.Codec}.


End AuthMiddleware.


(** ** Registration and login *)



Lemma find_username_last (us : list model.User) u :
  existsb (fun v => String.eqb (model.Username v) (model.Username u)) us = false ->
  List.find (fun v => String.eqb (model.Username v) (model.Username u)) (us ++ [u])
  = Some u.
Proof.
  induction us as [|v us IH]; simpl.
  - intros _. by rewrite String.eqb_refl.
  - intros Hex. apply orb_false_iff in Hex as [Hv Hus]. rewrite Hv. by apply IH.
Qed.

Section Accounts.
Context `{bcrypt.Hasher} `{jwt.Wire} `{uuid.Codec}.


(** What a successful insert tells about the statement and the table. *)
Lemma insert_user_inv username password_hash role (db db' : Database) id :
  pg.insert_user username password_hash role db = (inr id, db') ->
  pg.username_exists db username = false
  /\ id = uuids db (drawn db)
  /\ users db' = users db ++
       [ {| model.ID := id; model.Username := username;
            model.PasswordHash := password_hash; model.Role := role;
            model.CreatedAt := NOW db |} ].
Proof.
  unfold pg.insert_user, pg.draw.
  destruct (pg.role_check role); simpl; [|discriminate].
  destruct (pg.username_exists db username); [discriminate|].
  destruct (pg.user_id_exists db (uuids db (drawn db))); [discriminate|].
  intros E. injection E as <- <-. done.
Qed.




End Accounts.

(** ** Token issue *)

Section Issue.
Context `{bcrypt.Hasher} `{jwt.Wire} `{uuid.Codec}.

Lemma tokenClaims_user_id t1 t2 user ttl :
  serviceuser.tokenClaims t1 t2 user ttl !! "user_id"
  = Some (JString (uuid.String (model.ID user))).
Proof. unfold serviceuser.tokenClaims. by rewrite lookup_insert_eq. Qed.

Lemma tokenClaims_role t1 t2 user ttl :
  serviceuser.tokenClaims t1 t2 user ttl !! "role" = Some (JString (model.Role user)).
Proof.
  unfold serviceuser.tokenClaims.
  rewrite !lookup_insert_ne by done. by rewrite lookup_insert_eq.
Qed.

Lemma tokenClaims_exp t1 t2 user ttl :
  serviceuser.tokenClaims t1 t2 user ttl !! "exp"
  = Some (JNumber (inject_Z (time.Unix (time.Add t1 ttl)))).
Proof.
  unfold serviceuser.tokenClaims.
  rewrite !lookup_insert_ne by done. by rewrite lookup_insert_eq.
Qed.

Lemma tokenClaims_iat t1 t2 user ttl :
  serviceuser.tokenClaims t1 t2 user ttl !! "iat"
  = Some (JNumber (inject_Z (time.Unix t2))).
Proof.
  unfold serviceuser.tokenClaims.
  rewrite !lookup_insert_ne by done. by rewrite lookup_insert_eq.
Qed.

Lemma tokenClaims_nbf t1 t2 user ttl :
  serviceuser.tokenClaims t1 t2 user ttl !! "nbf" = None.
Proof.
  unfold serviceuser.tokenClaims.
  rewrite !lookup_insert_ne by done. by rewrite lookup_empty.
Qed.

(** The issued claims pass the validator until the expiry second. *)
Lemma tokenClaims_valid t1 t2 user ttl now :
  now < time.OfUnix (time.Unix (time.Add t1 ttl)) ->
  jwt.Validate now (serviceuser.tokenClaims t1 t2 user ttl) = None.
Proof.
  intros Hnow. apply Validate_fresh.
  - intros exp. unfold jwt.GetExpirationTime, jwt.parseNumericDate.
    rewrite tokenClaims_exp.
    destruct (Qeq_bool _ _); [discriminate|].
    rewrite Qfloor_Z. by intros [= <-].
  - unfold jwt.GetExpirationTime, jwt.parseNumericDate. rewrite tokenClaims_exp.
    by destruct (Qeq_bool _ _).
  - apply tokenClaims_nbf.
Qed.

(** C9, as amended.  In the claims of an issued token "exp" is the Unix
    second of the first clock reading plus the TTL and "iat" is the Unix
    second of the second clock reading.  When the TTL is a whole number of
    seconds and both readings fall in the same second, "exp" is "iat" plus
    the TTL. *)
Theorem tokenClaims_expiry t1 t2 user ttl :
  time.Unix t1 = time.Unix t2 ->
  ttl mod time.Second = 0 ->
  exists exp iat,
    serviceuser.tokenClaims t1 t2 user ttl !! "exp" = Some (JNumber (inject_Z exp))
    /\ serviceuser.tokenClaims t1 t2 user ttl !! "iat" = Some (JNumber (inject_Z iat))
    /\ exp = iat + ttl / time.Second
    /\ time.OfUnix exp = time.Add (time.OfUnix iat) ttl.
Proof.
  intros Hsame Hwhole.
  exists (time.Unix (time.Add t1 ttl)), (time.Unix t2).
  split; [apply tokenClaims_exp|]. split; [apply tokenClaims_iat|].
  assert (Hexp : time.Unix (time.Add t1 ttl) = time.Unix t2 + ttl / time.Second).
  { rewrite <- Hsame. unfold time.Unix, time.Add, time.Second in *.
    rewrite (Z.div_mod ttl 1000000000) at 1 by lia. rewrite Hwhole, Z.add_0_r.
    rewrite (Z.mul_comm 1000000000), Z.div_add by lia. reflexivity. }
  split; [exact Hexp|].
  rewrite Hexp. unfold time.OfUnix, time.Add, time.Second in *.
  rewrite (Z.div_mod ttl 1000000000) at 2 by lia. lia.
Qed.

(** A token issued for [user] under [secret] verifies, before its expiry
    second, to the id and the role of [user]. *)
Lemma generateToken_verifies t1 t2 user secret ttl now :
  reads_back jwt.SigningMethodHS256 (serviceuser.tokenClaims t1 t2 user ttl) secret ->
  uuid.Parse (uuid.String (model.ID user)) = (model.ID user, None) ->
  now < time.OfUnix (time.Unix (time.Add t1 ttl)) ->
  exists tok,
    serviceuser.generateToken t1 t2 user secret ttl = (tok, None)
    /\ middleware.validateToken now tok secret = (model.ID user, model.Role user, None).
Proof.
  intros (sstr & sig & p0 & p1 & p2 & valid & HS & Hsig & HU & Hp & HD) Hid Hnow.
  exists (sstr +:+ "." +:+ jwt.EncodeSegment sig). split.
  - unfold serviceuser.generateToken, jwt.SignedString, jwt.NewWithClaims.
    cbn [jwt.Method jwt.Claims]. by rewrite HS, Hsig.
  - unfold middleware.validateToken, jwt.Parse. rewrite HU, HD.
    unfold middleware.keyFunc. simpl. rewrite Hp.
    simpl in Hsig. injection Hsig as <-. rewrite String.eqb_refl.
    rewrite (tokenClaims_valid _ _ _ _ _ Hnow). simpl.
    by rewrite tokenClaims_user_id, Hid, tokenClaims_role.
Qed.

(** C5.  After a registration that succeeded with id [id], for a hasher
    whose hash of the password verifies against the password, a wire
    format that reads the issued token back and a UUID text form that
    parses back: login with the same username and password returns a
    token, and [validateToken] on that token, at any time before its expiry
    second and under the same secret, returns [id] and the registered
    role. *)
Theorem login_then_verify salt username role password (db db' : Database) id
    cfg t1 t2 now :
  serviceuser.Register salt username role password db = ((id, None), db') ->
  (forall hashed, serviceuser.hashPassword salt password = (hashed, None) ->
                  serviceuser.verifyPassword password hashed = None) ->
  (forall user, pg.user_by_username db' username = Some user ->
                reads_back jwt.SigningMethodHS256
                  (serviceuser.tokenClaims t1 t2 user (config.TTL (config.JWT_ cfg)))
                  (config.Secret (config.JWT_ cfg))) ->
  uuid.Parse (uuid.String id) = (id, None) ->
  now < time.OfUnix (time.Unix (time.Add t1 (config.TTL (config.JWT_ cfg)))) ->
  exists tok,
    serviceuser.Login cfg t1 t2 username password db' = (tok, None)
    /\ middleware.validateToken now tok (config.Secret (config.JWT_ cfg))
       = (id, role, None).
Proof.
  intros HR Hhash Hwire Hid Hnow.
  unfold serviceuser.Register in HR. simpl in HR.
  unfold repouser.CheckUserExistsByUsername in HR.
  destruct (pg.username_exists db username) eqn:Hex; [discriminate|].
  destruct (serviceuser.hashPassword salt password) as [hashed [e|]] eqn:EH;
    [discriminate|].
  unfold repouser.Create in HR. simpl in HR.
  destruct (pg.insert_user username hashed role db) as [[e|id'] db''] eqn:EI;
    [discriminate|].
  injection HR as <- <-.
  apply insert_user_inv in EI as (_ & _ & Hus).
  set (user := {| model.ID := id'; model.Username := username;
                  model.PasswordHash := hashed; model.Role := role;
                  model.CreatedAt := NOW db |}) in *.
  assert (Hfind : pg.user_by_username db'' username = Some user).
  { unfold pg.user_by_username. rewrite Hus.
    apply (find_username_last (users db) user). exact Hex. }
  destruct (generateToken_verifies t1 t2 user (config.Secret (config.JWT_ cfg))
              (config.TTL (config.JWT_ cfg)) now (Hwire user Hfind) Hid Hnow)
    as (tok & Hgen & Hver).
  exists tok. split; [|exact Hver].
  unfold serviceuser.Login. simpl. unfold repouser.GetUserByUsername.
  rewrite Hfind. simpl. rewrite (Hhash hashed eq_refl). by rewrite Hgen.
Qed.

End Issue.

(** ** Actor propagation *)

Section Actor.
Context `{uuid.Codec}.

Lemma insert_history_setting item_id action old_data new_data (db db' : Database) :
  triggers.insert_history item_id action old_data new_data db = inr db' ->
  current_user_id db' = current_user_id db.
Proof.
  unfold triggers.insert_history.
  destruct (triggers.current_setting_uuid db) as [e|actor]; [discriminate|].
  destruct (pg.user_id_exists db actor); simpl; [|discriminate].
  destruct (existsb _ _); [discriminate|]. by intros [= <-].
Qed.

(** A session in which [app.current_user_id] was never set makes every
    trigger fail. *)
Lemma insert_history_unset item_id action old_data new_data (db : Database) :
  current_user_id db = None ->
  exists err, triggers.insert_history item_id action old_data new_data db = inl err.
Proof.
  intros Hunset. unfold triggers.insert_history, triggers.current_setting_uuid.
  rewrite Hunset. eauto.
Qed.

Lemma CreateItem_setting item (db : Database) :
  current_user_id (repoitem.CreateItem item db).2 = current_user_id db.
Proof.
  unfold repoitem.CreateItem, pg.draw, triggers.log_item_insert.
  destruct (repoitem.columns item) as [e|price]; [done|].
  cbn [fst snd]. destruct (existsb _ (items db)); [done|].
  destruct (triggers.insert_history _ _ _ _ _) as [e|db'] eqn:E; [done|].
  cbn [snd]. by rewrite (insert_history_setting _ _ _ _ _ _ E).
Qed.

Lemma UpdateItem_setting item (db : Database) :
  current_user_id (repoitem.UpdateItem item db).2 = current_user_id db.
Proof.
  unfold repoitem.UpdateItem, triggers.log_item_update.
  destruct (repoitem.columns item) as [e|price]; [done|].
  destruct (repoitem.item_by_id db (model.Item.ID item)) as [OLD|]; [|done].
  destruct (triggers.insert_history _ _ _ _ _) as [e|db'] eqn:E; [done|].
  cbn [snd]. by rewrite (insert_history_setting _ _ _ _ _ _ E).
Qed.

Lemma DeleteItem_setting itemID (db : Database) :
  current_user_id (repoitem.DeleteItem itemID db).2 = current_user_id db.
Proof.
  unfold repoitem.DeleteItem, triggers.log_item_delete.
  destruct (repoitem.item_by_id db itemID) as [OLD|]; [|done].
  destruct (triggers.insert_history _ _ _ _ _) as [e|db'] eqn:E; [done|].
  cbn. by rewrite (insert_history_setting _ _ _ _ _ _ E).
Qed.

Lemma CreateItem_unset item (db : Database) :
  current_user_id db = None ->
  exists err, repoitem.CreateItem item db = ((uuid.Nil, Some err), db).
Proof.
  intros Hunset. unfold repoitem.CreateItem, pg.draw, triggers.log_item_insert.
  destruct (repoitem.columns item) as [e|price]; [eauto|].
  cbn [fst snd]. destruct (existsb _ (items db)); [eauto|].
  edestruct insert_history_unset as [err ->]; [|eauto]. done.
Qed.

(** C1.  The mutating methods of the item service leave the session
    setting [app.current_user_id] as they found it: [Create], [Update] and
    [Delete] go to [CreateItem], [UpdateItem] and [DeleteItem] without a
    call of [SetCurrentUser], and they take no actor id to pass on.  In a
    session where the setting was never set, [Create] fails and stores
    nothing. *)
Theorem Service_mutations_keep_session_actor (db : Database)
    name description quantity price itemID :
  current_user_id (serviceitem.Create name description quantity price db).2
    = current_user_id db
  /\ current_user_id (serviceitem.Update itemID name description quantity price db).2
     = current_user_id db
  /\ current_user_id (serviceitem.Delete itemID db).2 = current_user_id db
  /\ (current_user_id db = None ->
      exists err, serviceitem.Create name description quantity price db
                  = ((uuid.Nil, Some err), db)).
Proof.
  repeat split.
  - unfold serviceitem.Create.
    cbn [serviceitem.CreateItem main.itemRepo].
    pose proof (CreateItem_setting
                  {| model.Item.ID := uuid.Nil; model.Item.Name := name;
                     model.Item.Description := description;
                     model.Item.Quantity := quantity; model.Item.Price := price;
                     model.Item.CreatedAt := time.zero;
                     model.Item.UpdatedAt := time.zero |} db) as Hs.
    destruct (repoitem.CreateItem _ db) as [[id [e|]] db']; exact Hs.
  - unfold serviceitem.Update.
    cbn [serviceitem.UpdateItem main.itemRepo].
    pose proof (UpdateItem_setting
                  {| model.Item.ID := itemID; model.Item.Name := name;
                     model.Item.Description := description;
                     model.Item.Quantity := quantity; model.Item.Price := price;
                     model.Item.CreatedAt := time.zero;
                     model.Item.UpdatedAt := time.zero |} db) as Hs.
    destruct (repoitem.UpdateItem _ db) as [[e|] db']; exact Hs.
  - unfold serviceitem.Delete.
    cbn [serviceitem.DeleteItem main.itemRepo].
    pose proof (DeleteItem_setting itemID db) as Hs.
    destruct (repoitem.DeleteItem itemID db) as [[e|] db']; exact Hs.
  - intros Hunset. unfold serviceitem.Create.
    cbn [serviceitem.CreateItem main.itemRepo].
    destruct (CreateItem_unset
                {| model.Item.ID := uuid.Nil; model.Item.Name := name;
                   model.Item.Description := description;
                   model.Item.Quantity := quantity; model.Item.Price := price;
                   model.Item.CreatedAt := time.zero;
                   model.Item.UpdatedAt := time.zero |} db Hunset) as [err ->].
    eauto.
Qed.

End Actor.

(** ** The properties on the sample instance *)

Section SampleRuns.

#[local] Existing Instance sample.hasher.
#[local] Existing Instance sample.aliceWire.
#[local] Existing Instance sample.uuidCodec.




(** C9, the claim as stated fails: with a TTL of 1.5 s and both clock
    readings at 1700000000.6 s the token carries "exp" = 1700000002 and
    "iat" = 1700000000, two seconds apart. *)
Lemma tokenClaims_fractional_ttl :
  serviceuser.tokenClaims 1700000000600000000 1700000000600000000 sample.alice 1500000000
    !! "exp" = Some (JNumber (inject_Z 1700000002))
  /\ serviceuser.tokenClaims 1700000000600000000 1700000000600000000 sample.alice 1500000000
       !! "iat" = Some (JNumber (inject_Z 1700000000))
  /\ time.OfUnix 1700000002 <> time.Add (time.OfUnix 1700000000) 1500000000.
Proof.
  split; [|split].
  - rewrite tokenClaims_exp. reflexivity.
  - rewrite tokenClaims_iat. reflexivity.
  - discriminate.
Defined.

Lemma tokenClaims_expiry_witness :
  exists exp iat,
    sample.aliceClaims !! "exp" = Some (JNumber (inject_Z exp))
    /\ sample.aliceClaims !! "iat" = Some (JNumber (inject_Z iat))
    /\ exp = iat + 3600
    /\ time.OfUnix exp = time.Add (time.OfUnix iat) (3600 * time.Second).
Proof.
  apply (tokenClaims_expiry sample.issuedAt sample.issuedAt sample.alice
           (3600 * time.Second)); reflexivity.
Defined.

Lemma login_then_verify_witness :
  exists tok,
    serviceuser.Login sample.cfg sample.issuedAt sample.issuedAt "alice" "pw1"
      sample.aliceDatabase = (tok, None)
    /\ middleware.validateToken sample.soonAfter tok "s3cret" = (1%N, "admin", None).
Proof.
  apply (login_then_verify "salt" "alice" "admin" "pw1" sample.emptyDatabase
           sample.aliceDatabase 1%N sample.cfg sample.issuedAt sample.issuedAt
           sample.soonAfter).
  - reflexivity.
  - intros hashed Hh. vm_compute in Hh. injection Hh as <-. reflexivity.
  - intros user Hu. vm_compute in Hu. injection Hu as <-.
    do 6 eexists. split; [reflexivity|]. split; [reflexivity|].
    split; [vm_compute; reflexivity|]. split; vm_compute; reflexivity.
  - reflexivity.
  - reflexivity.
Defined.

Lemma Service_mutations_keep_session_actor_witness :
  exists err,
    serviceitem.Create "bolt" "" 5 (1 # 1) sample.aliceDatabase
    = ((uuid.Nil, Some err), sample.aliceDatabase).
Proof.
  apply (Service_mutations_keep_session_actor sample.aliceDatabase
           "bolt" "" 5 (1 # 1) 0%N).
  reflexivity.
Defined.

End SampleRuns.

(** * Further properties *)

(** ** The header of a protected request *)




Section Header.
Context `{jwt.Wire} `{uuid.Codec}.


End Header.


(** ** The role gate as a set *)

Lemma allowedRoles_lookup roles role :
  middleware.allowedRoles roles !! role
  = if decide (role ∈ roles) then Some tt else None.
Proof.
  pose proof (allowedRoles_member roles role) as Hm.
  destruct (middleware.allowedRoles roles !! role) as [[]|] eqn:E.
  - rewrite decide_True; [done|]. apply Hm. eauto.
  - rewrite decide_False; [done|]. intros Hin. apply Hm in Hin as [? ?]. discriminate.
Qed.

(** X2.  The gate depends on the permitted roles as a set: two lists with
    the same members, in any order and with any repetitions, give the same
    gate; and the gate of the empty list lets no request through. *)
Theorem RequireRole_set (roles roles' : list string) (c : gin.Context) :
  ((forall role, role ∈ roles <-> role ∈ roles') ->
     middleware.RequireRole roles c = middleware.RequireRole roles' c)
  /\ gin.IsAborted (middleware.RequireRole [] c) = true.
Proof.
  split.
  - intros Hsame. unfold middleware.RequireRole.
    destruct (gin.Get c "role") as [[role|u]|]; try reflexivity.
    rewrite !allowedRoles_lookup.
    destruct (decide (role ∈ roles)) as [Hin|Hout].
    + rewrite decide_True; [done|]. by apply Hsame.
    + rewrite decide_False; [done|]. intros Hin. by apply Hout, Hsame.
  - unfold middleware.RequireRole.
    destruct (gin.Get c "role") as [[role|u]|]; reflexivity.
Qed.

Lemma RequireRole_set_witness :
  middleware.RequireRole ["admin"; "manager"] sample.viewerContext
  = middleware.RequireRole ["manager"; "admin"; "manager"] sample.viewerContext.
Proof.
  apply (RequireRole_set ["admin"; "manager"] ["manager"; "admin"; "manager"]).
  intros role. rewrite !elem_of_cons. tauto.
Defined.

Lemma FailAbort_changes c status err : response.FailAbort c status err <> c.
Proof.
  intros E. apply (f_equal (fun x => length (gin.Writer x))) in E.
  simpl in E. rewrite length_app in E. simpl in E. lia.
Qed.

(** X3.  The gate lets a request through only if a string role is bound
    and is in the list: it returns the context unchanged exactly in that
    case, and in every other case it aborts with one 403 response and
    leaves the keys of the context as they were. *)
Theorem RequireRole_only_listed (roles : list string) (c : gin.Context) :
  (middleware.RequireRole roles c = c
   <-> exists role, gin.Get c "role" = Some (gin.any_string role) /\ role ∈ roles)
  /\ (middleware.RequireRole roles c <> c ->
      gin.IsAborted (middleware.RequireRole roles c) = true
      /\ gin.Keys (middleware.RequireRole roles c) = gin.Keys c
      /\ exists err, gin.Writer (middleware.RequireRole roles c)
                     = gin.Writer c ++ [(403, response.Error (errors.Error err))]).
Proof.
  unfold middleware.RequireRole.
  destruct (gin.Get c "role") as [[role|u]|] eqn:Hget.
  - rewrite allowedRoles_lookup. destruct (decide (role ∈ roles)) as [Hin|Hout].
    + split; [|done]. split; [eauto|done].
    + split.
      * split; [intros E; by apply FailAbort_changes in E|].
        intros (r & [= <-] & Hin). done.
      * intros _. repeat split. eauto.
  - split.
    + split; [intros E; by apply FailAbort_changes in E|].
      intros (r & [=] & _).
    + intros _. repeat split. eauto.
  - split.
    + split; [intros E; by apply FailAbort_changes in E|].
      intros (r & [=] & _).
    + intros _. repeat split. eauto.
Qed.

Lemma RequireRole_only_listed_witness :
  gin.IsAborted (middleware.RequireRole ["admin"] sample.managerContext) = true
  /\ gin.Keys (middleware.RequireRole ["admin"] sample.managerContext)
     = gin.Keys sample.managerContext.
Proof.
  destruct (RequireRole_only_listed ["admin"] sample.managerContext) as [_ Hdeny].
  destruct Hdeny as (Ha & Hk & _); [|by split].
  vm_compute. discriminate.
Defined.

(** ** A route behind [Auth] and a role gate *)

Section ProtectedRoute.
Context `{jwt.Wire} `{uuid.Codec}.

(** The two outcomes of [Auth]. *)
Lemma Auth_cases now secret ttl (c : gin.Context) :
  (exists tok userID role,
      gostrings.Split (gin.GetHeader c "Authorization") " " = ["Bearer"; tok]
      /\ middleware.validateToken now tok secret = (userID, role, None)
      /\ middleware.Auth now secret ttl c = bound c userID role)
  \/ (exists err,
        middleware.Auth now secret ttl c
          = response.FailAbort c http.StatusUnauthorized err
        /\ forall tok,
             gostrings.Split (gin.GetHeader c "Authorization") " " = ["Bearer"; tok] ->
             (middleware.validateToken now tok secret).2 <> None).
Proof.
  unfold middleware.Auth.
  destruct (String.eqb (gin.GetHeader c "Authorization") "") eqn:Eempty.
  { right. eexists. split; [reflexivity|]. intros tok Hs.
    apply String.eqb_eq in Eempty. rewrite Eempty in Hs. discriminate. }
  destruct (gostrings.Split (gin.GetHeader c "Authorization") " ")
    as [|p0 [|p1 [|p2 ps]]] eqn:Es;
    try (right; eexists; split; [reflexivity|]; intros; discriminate).
  destruct (String.eqb p0 "Bearer") eqn:Eb; simpl.
  - apply String.eqb_eq in Eb. subst p0.
    destruct (middleware.validateToken now p1 secret) as [[userID role] [err|]] eqn:Ev.
    + right. eexists. split; [reflexivity|]. intros tok [= <-]. by rewrite Ev.
    + left. by exists p1, userID, role.
  - right. eexists. split; [reflexivity|]. intros tok [= -> _]. discriminate.
Qed.

Lemma serve_one {W : Type} (h : gin.HandlerFunc W) c w : gin.serve [h] c w = h c w.
Proof. simpl. destruct (h c w) as [c' w']. by destruct (gin.IsAborted c'). Qed.

(** X4.  On a route whose chain is [Auth], then [RequireRole], then a
    handler: when the header carries a token that [validateToken] accepts
    with a role of the list, the handler runs once, on the context in
    which "userID" and "role" are bound to what the token carries, and its
    result is the result of the chain; in every other case the handler
    does not run: the state behind the service is untouched, the chain is
    aborted and the last response is a 401 or a 403. *)
Theorem protected_route {W : Type} now secret ttl (roles : list string)
    (h : gin.HandlerFunc W) (c : gin.Context) (w : W) :
  gin.IsAborted c = false ->
  (forall tok userID role,
      gostrings.Split (gin.GetHeader c "Authorization") " " = ["Bearer"; tok] ->
      middleware.validateToken now tok secret = (userID, role, None) ->
      role ∈ roles ->
      gin.serve [gin.lift (middleware.Auth now secret ttl);
                 gin.lift (middleware.RequireRole roles); h] c w
      = h (bound c userID role) w)
  /\ (~ (exists tok userID role,
           gostrings.Split (gin.GetHeader c "Authorization") " " = ["Bearer"; tok]
           /\ middleware.validateToken now tok secret = (userID, role, None)
           /\ role ∈ roles) ->
      let out := gin.serve [gin.lift (middleware.Auth now secret ttl);
                            gin.lift (middleware.RequireRole roles); h] c w in
      out.2 = w
      /\ gin.IsAborted out.1 = true
      /\ (lastStatus out.1 = Some 401 \/ lastStatus out.1 = Some 403)).
Proof.
  intros Hc.
  assert (Hgate : forall userID role, role ∈ roles ->
            middleware.RequireRole roles (bound c userID role) = bound c userID role).
  { intros userID role Hin. unfold middleware.RequireRole, gin.Get, bound. simpl.
    rewrite lookup_insert_eq, allowedRoles_lookup. by rewrite decide_True. }
  assert (Hdeny : forall userID role, role ∉ roles ->
            middleware.RequireRole roles (bound c userID role)
            = response.FailAbort (bound c userID role) http.StatusForbidden
                (errorString ErrAccessDenied)).
  { intros userID role Hout. unfold middleware.RequireRole, gin.Get, bound. simpl.
    rewrite lookup_insert_eq, allowedRoles_lookup. by rewrite decide_False. }
  split.
  - intros tok userID role Hs Hv Hin.
    assert (HA : middleware.Auth now secret ttl c = bound c userID role).
    { unfold middleware.Auth.
      destruct (String.eqb (gin.GetHeader c "Authorization") "") eqn:E.
      { apply String.eqb_eq in E. rewrite E in Hs. discriminate. }
      rewrite Hs. simpl. by rewrite Hv. }
    rewrite serve_pass; rewrite HA; [|exact Hc].
    rewrite serve_pass; rewrite (Hgate _ _ Hin); [|exact Hc].
    apply serve_one.
  - intros Hno out. subst out.
    destruct (Auth_cases now secret ttl c)
      as [(tok & userID & role & Hs & Hv & HA)|(err & HA & _)].
    + assert (Hout : role ∉ roles).
      { intros Hin. apply Hno. by exists tok, userID, role. }
      rewrite serve_pass; rewrite HA; [|exact Hc].
      rewrite serve_abort; rewrite (Hdeny _ _ Hout); [|reflexivity].
      repeat split. right. unfold lastStatus. simpl. by rewrite last_snoc.
    + rewrite serve_abort; rewrite HA; [|reflexivity].
      repeat split. left. unfold lastStatus. simpl. by rewrite last_snoc.
Qed.

End ProtectedRoute.

Lemma protected_route_witness :
  gin.serve [gin.lift (@middleware.Auth sample.aliceWire sample.uuidCodec
                         sample.soonAfter "s3cret" 0);
             gin.lift (middleware.RequireRole ["admin"]);
             gin.lift (fun c => response.OK c JNull)]
            (sample.bearer sample.aliceToken) tt
  = (response.OK (bound (sample.bearer sample.aliceToken) 1%N "admin") JNull, tt).
Proof.
  apply (@protected_route sample.aliceWire sample.uuidCodec unit sample.soonAfter
           "s3cret" 0 ["admin"] (gin.lift (fun c => response.OK c JNull))
           (sample.bearer sample.aliceToken) tt eq_refl)
    with (tok := sample.aliceToken).
  - reflexivity.
  - vm_compute. reflexivity.
  - apply elem_of_cons. by left.
Defined.

(** ** The constraints of the schema *)

Lemma existsb_map_elem {A : Type} (f : A -> N) (l : list A) (id : N) :
  existsb (fun x => N.eqb (f x) id) l = true <-> id ∈ map f l.
Proof.
  induction l as [|x l IH]; simpl.
  - split; [discriminate|]. intros Hin. by apply elem_of_nil in Hin.
  - rewrite orb_true_iff, IH, elem_of_cons, N.eqb_eq.
    split; (intros [E|E]; [left; by symmetry | by right]).
Qed.

Lemma existsb_map_not_elem {A : Type} (f : A -> N) (l : list A) (id : N) :
  existsb (fun x => N.eqb (f x) id) l = false <-> id ∉ map f l.
Proof.
  rewrite <- existsb_map_elem. destruct (existsb _ l); split; done.
Qed.

Lemma username_exists_elem (db : Database) username :
  pg.username_exists db username = false <-> username ∉ map model.Username (users db).
Proof.
  unfold pg.username_exists. induction (users db) as [|u us IH]; simpl.
  - split; [intros _ Hin; by apply elem_of_nil in Hin | done].
  - rewrite orb_false_iff, IH, not_elem_of_cons, String.eqb_neq.
    split; (intros [E ?]; split; [congruence | done]).
Qed.

Lemma NoDup_map_snoc {A B : Type} (f : A -> B) (l : list A) (x : A) :
  NoDup (map f l) -> f x ∉ map f l -> NoDup (map f (l ++ [x])).
Proof.
  intros Hnd Hnew. rewrite map_app. simpl. apply NoDup_app. split; [done|]. split.
  - intros y Hy Hx. apply list_elem_of_singleton in Hx. by subst.
  - apply NoDup_singleton.
Qed.

Lemma NoDup_map_filter {A B : Type} (f : A -> B) (p : A -> bool) (l : list A) :
  NoDup (map f l) -> NoDup (map f (List.filter p l)).
Proof.
  induction l as [|x l IH]; simpl; [done|].
  intros Hnd. apply NoDup_cons in Hnd as [Hx Hl].
  destruct (p x); simpl; [|by apply IH].
  apply NoDup_cons. split; [|by apply IH].
  intros Hin. apply Hx. clear -Hin.
  induction l as [|y l IH]; simpl in *; [done|].
  destruct (p y); simpl in *.
  - apply elem_of_cons in Hin as [->|Hin]; [by left | right; by apply IH].
  - right. by apply IH.
Qed.

Lemma elem_map_filter_ne (its : list model.Item.t) (id itemID : uuid.UUID) :
  id ∈ map model.Item.ID its -> id <> itemID ->
  id ∈ map model.Item.ID
         (List.filter (fun i => negb (N.eqb (model.Item.ID i) itemID)) its).
Proof.
  intros Hin Hne. induction its as [|i its IH]; simpl in *; [done|].
  apply elem_of_cons in Hin as [->|Hin].
  - assert (E : N.eqb (model.Item.ID i) itemID = false) by by apply N.eqb_neq.
    rewrite E. simpl. by left.
  - destruct (negb _); simpl; [right|]; by apply IH.
Qed.

Lemma find_item_id (its : list model.Item.t) (id : uuid.UUID) (i : model.Item.t) :
  List.find (fun i => N.eqb (model.Item.ID i) id) its = Some i ->
  model.Item.ID i = id /\ id ∈ map model.Item.ID its.
Proof.
  induction its as [|j its IH]; simpl; [discriminate|].
  destruct (N.eqb (model.Item.ID j) id) eqn:E.
  - intros [= <-]. apply N.eqb_eq in E. split; [done|]. rewrite <- E. by left.
  - intros Hf. destruct (IH Hf) as [? ?]. split; [done|]. by right.
Qed.

Lemma map_ID_update (its : list model.Item.t) (id : uuid.UUID) (NEW : model.Item.t) :
  model.Item.ID NEW = id ->
  map model.Item.ID
      (map (fun i => if N.eqb (model.Item.ID i) id then NEW else i) its)
  = map model.Item.ID its.
Proof.
  intros HN. induction its as [|i its IH]; simpl; [done|]. rewrite IH. f_equal.
  destruct (N.eqb (model.Item.ID i) id) eqn:E; [|done].
  apply N.eqb_eq in E. congruence.
Qed.

Section Schema.
Context `{uuid.Codec}.

(** What a trigger that succeeded did to the tables. *)
Lemma insert_history_ok item_id action old_data new_data (db db' : Database) :
  triggers.insert_history item_id action old_data new_data db = inr db' ->
  users db' = users db /\ items db' = items db
  /\ exists h, item_history db' = item_history db ++ [h]
               /\ model.ItemHistory.ItemID h = item_id
               /\ model.ItemHistory.Action h = action
               /\ model.ItemHistory.OldData h = old_data
               /\ model.ItemHistory.NewData h = new_data
               /\ model.ItemHistory.ChangedBy h ∈ map model.ID (users db)
               /\ triggers.current_setting_uuid db = inr (model.ItemHistory.ChangedBy h)
               /\ model.ItemHistory.ID h ∉ map model.ItemHistory.ID (item_history db).
Proof.
  unfold triggers.insert_history.
  destruct (triggers.current_setting_uuid db) as [e|actor] eqn:Ea; [discriminate|].
  destruct (pg.user_id_exists db actor) eqn:Eu; simpl; [|discriminate].
  destruct (existsb _ (item_history db)) eqn:Eh; [discriminate|].
  intros [= <-]. simpl. repeat split. eexists. split; [reflexivity|]. simpl.
  repeat split.
  - by apply existsb_map_elem in Eu.
  - by apply existsb_map_not_elem in Eh.
Qed.

Lemma schema_snoc_history (db db' : Database) h :
  schema_holds db ->
  users db' = users db ->
  map model.Item.ID (items db') = map model.Item.ID (items db) ->
  item_history db' = item_history db ++ [h] ->
  model.ItemHistory.ChangedBy h ∈ map model.ID (users db) ->
  model.ItemHistory.ItemID h ∈ map model.Item.ID (items db) ->
  model.ItemHistory.ID h ∉ map model.ItemHistory.ID (item_history db) ->
  schema_holds db'.
Proof.
  intros (Hu & Hi & Hr & Hit & Hh & Hfk) Eu Ei Eh Hc Hitem Hid.
  unfold schema_holds. rewrite Eu, Ei, Eh. repeat split; try done.
  - by apply NoDup_map_snoc.
  - apply Forall_app. split; [done|]. by apply Forall_singleton.
Qed.

(** X5.  Every mutating operation of the two repositories keeps the
    constraints of the schema: from a database in which usernames, user
    ids, item ids and history ids are unique, roles are among admin,
    manager and viewer, and every history row references a user and an
    item of the tables, [Create] (of a user), [CreateItem], [UpdateItem],
    [DeleteItem] and [SetCurrentUser] lead to such a database again,
    whether they succeed or fail. *)
Theorem repositories_keep_schema (db : Database) :
  schema_holds db ->
  (forall user, schema_holds (repouser.Create user db).2)
  /\ (forall item, schema_holds (repoitem.CreateItem item db).2)
  /\ (forall item, schema_holds (repoitem.UpdateItem item db).2)
  /\ (forall itemID, schema_holds (repoitem.DeleteItem itemID db).2)
  /\ (forall userID, schema_holds (repoitem.SetCurrentUser userID db).2).
Proof.
  intros Hs. pose proof Hs as (Hu & Hi & Hr & Hit & Hh & Hfk).
  split; [|split; [|split; [|split]]].
  - intros user. unfold repouser.Create, pg.insert_user, pg.draw.
    destruct (pg.role_check (model.Role user)) eqn:Er; simpl; [|done].
    destruct (pg.username_exists db (model.Username user)) eqn:En; simpl; [done|].
    destruct (pg.user_id_exists db (uuids db (drawn db))) eqn:Ei; simpl; [done|].
    unfold schema_holds. simpl. repeat split; try done.
    + apply NoDup_map_snoc; [done|]. by apply username_exists_elem.
    + apply NoDup_map_snoc; [done|]. by apply existsb_map_not_elem in Ei.
    + apply Forall_app. split; [done|]. by apply Forall_singleton.
    + eapply Forall_impl; [exact Hfk|]. intros h [Hc Hitem]. split; [|done].
      rewrite map_app. apply elem_of_app. by left.
  - intros item. unfold repoitem.CreateItem, pg.draw, triggers.log_item_insert.
    destruct (repoitem.columns item) as [e|price]; [done|].
    cbn [fst snd].
    destruct (existsb _ (items db)) eqn:Ei; [done|].
    destruct (triggers.insert_history _ _ _ _ _) as [e|db'] eqn:E; [done|].
    cbn [snd]. apply insert_history_ok in E
      as (Eu & Eit & h & Eh & Hitem & _ & _ & _ & Hc & _ & Hid).
    simpl in Eu, Eit, Eh, Hc, Hid, Hitem.
    unfold schema_holds. rewrite Eu, Eit, Eh. repeat split; try done.
    + apply NoDup_map_snoc; [done|]. by apply existsb_map_not_elem in Ei.
    + by apply NoDup_map_snoc.
    + apply Forall_app. split.
      * eapply Forall_impl; [exact Hfk|]. intros h' [? ?]. split; [done|].
        rewrite map_app. apply elem_of_app. by left.
      * apply Forall_singleton. split; [done|].
        rewrite Hitem, map_app. apply elem_of_app. right. simpl. by left.
  - intros item. unfold repoitem.UpdateItem, triggers.log_item_update.
    destruct (repoitem.columns item) as [e|price]; [done|].
    destruct (repoitem.item_by_id db (model.Item.ID item)) as [OLD|] eqn:Ef; [|done].
    apply find_item_id in Ef as [HO Hin].
    destruct (triggers.insert_history _ _ _ _ _) as [e|db'] eqn:E; [done|].
    cbn [snd]. apply insert_history_ok in E
      as (Eu & Eit & h & Eh & Hitem & _ & _ & _ & Hc & _ & Hid).
    simpl in Eu, Eit, Eh, Hc, Hid, Hitem.
    apply (schema_snoc_history db db' h); try done.
    + rewrite Eit. by apply map_ID_update.
    + by rewrite Hitem, HO.
  - intros itemID. unfold repoitem.DeleteItem, triggers.log_item_delete.
    destruct (repoitem.item_by_id db itemID) as [OLD|] eqn:Ef; [|done].
    apply find_item_id in Ef as [HO Hin].
    destruct (triggers.insert_history _ _ _ _ _) as [e|db'] eqn:E; [done|].
    cbn [snd]. apply insert_history_ok in E
      as (Eu & Eit & h & Eh & Hitem & _ & _ & _ & Hc & _ & Hid).
    unfold schema_holds. simpl. rewrite Eu, Eit, Eh. repeat split; try done.
    + by apply NoDup_map_filter.
    + apply NoDup_map_filter. by apply NoDup_map_snoc.
    + rewrite List.filter_app. apply Forall_app. split.
      * clear -Hfk. induction Hfk as [|h' hs [Hc' Hi'] _ IH]; simpl; [done|].
        destruct (negb (N.eqb (model.ItemHistory.ItemID h') itemID)) eqn:En; [|done].
        apply Forall_cons. split; [|done]. split; [done|].
        apply elem_map_filter_ne; [done|].
        apply negb_true_iff in En. by apply N.eqb_neq in En.
      * simpl. rewrite Hitem, HO, N.eqb_refl. simpl. done.
  - intros userID. done.
Qed.

End Schema.

Lemma empty_schema_holds : schema_holds sample.emptyDatabase.
Proof.
  unfold schema_holds. simpl. repeat split; try apply NoDup_nil_2; apply Forall_nil_2.
Qed.

Lemma repositories_keep_schema_witness :
  schema_holds sample.aliceDatabase.
Proof.
  change (schema_holds
            (repouser.Create
               {| model.ID := uuid.Nil; model.Username := "alice";
                  model.PasswordHash := "$toy$10$salt$pw1"; model.Role := "admin";
                  model.CreatedAt := time.zero |} sample.emptyDatabase).2).
  apply (@repositories_keep_schema sample.uuidCodec sample.emptyDatabase
           empty_schema_holds).
Defined.

(** ** More on registration, login and the user handler *)

Lemma insert_user_fresh username password_hash role (db db' : Database) id :
  pg.insert_user username password_hash role db = (inr id, db') ->
  pg.user_id_exists db id = false /\ pg.role_check role = true.
Proof.
  unfold pg.insert_user, pg.draw.
  destruct (pg.role_check role); simpl; [|discriminate].
  destruct (pg.username_exists db username); [discriminate|].
  destruct (pg.user_id_exists db (uuids db (drawn db))) eqn:E; [discriminate|].
  by intros [= <- _].
Qed.


Lemma find_username_eq (us : list model.User) username (u : model.User) :
  List.find (fun v => String.eqb (model.Username v) username) us = Some u ->
  model.Username u = username.
Proof.
  induction us as [|v us IH]; simpl; [discriminate|].
  destruct (String.eqb (model.Username v) username) eqn:E; [|done].
  intros [= <-]. by apply String.eqb_eq.
Qed.

Section Registry.
Context `{bcrypt.Hasher} `{jwt.Wire} `{uuid.Codec}.

(** What a successful [Register] did. *)
Lemma Register_ok_inv salt username role password (db db' : Database) id :
  serviceuser.Register salt username role password db = ((id, None), db') ->
  exists hashed,
    serviceuser.hashPassword salt password = (hashed, None)
    /\ pg.username_exists db username = false
    /\ pg.user_id_exists db id = false
    /\ pg.role_check role = true
    /\ users db' = users db ++
         [ {| model.ID := id; model.Username := username;
              model.PasswordHash := hashed; model.Role := role;
              model.CreatedAt := NOW db |} ].
Proof.
  intros HR. unfold serviceuser.Register in HR. simpl in HR.
  unfold repouser.CheckUserExistsByUsername in HR.
  destruct (pg.username_exists db username) eqn:Hex; [discriminate|].
  destruct (serviceuser.hashPassword salt password) as [hashed [e|]] eqn:EH;
    [discriminate|].
  unfold repouser.Create in HR. simpl in HR.
  destruct (pg.insert_user username hashed role db) as [[e|id'] db''] eqn:EI;
    [discriminate|].
  injection HR as <- <-.
  destruct (insert_user_fresh _ _ _ _ _ _ EI) as [Hf Hr].
  apply insert_user_inv in EI as (_ & _ & Hus). by exists hashed.
Qed.

(** X6.  After a registration that succeeded, every further registration
    under the same username fails with [ErrUserAlreadyExists], whatever
    role and password it brings, and leaves the database as it is. *)
Theorem Register_twice salt username role password (db db' : Database) id
    salt' role' password' :
  serviceuser.Register salt username role password db = ((id, None), db') ->
  serviceuser.Register salt' username role' password' db'
    = ((uuid.Nil, Some (errorString ErrUserAlreadyExists)), db').
Proof.
  intros HR. apply Register_ok_inv in HR as (hashed & _ & _ & _ & _ & Hus).
  unfold serviceuser.Register. simpl. unfold repouser.CheckUserExistsByUsername.
  assert (Hex : pg.username_exists db' username = true).
  { unfold pg.username_exists. rewrite Hus, existsb_app. simpl.
    rewrite String.eqb_refl. by rewrite orb_true_r. }
  by rewrite Hex.
Qed.

(** X7.  [Login] returns a token only for a username the table holds and a
    password the stored hash verifies; the token is the one [generateToken]
    issues for that row.  With an error it returns the empty string. *)
Theorem Login_sound cfg t1 t2 username password (db : Database) :
  (forall tok,
      serviceuser.Login cfg t1 t2 username password db = (tok, None) ->
      exists user,
        pg.user_by_username db username = Some user
        /\ model.Username user = username
        /\ serviceuser.verifyPassword password (model.PasswordHash user) = None
        /\ serviceuser.generateToken t1 t2 user (config.Secret (config.JWT_ cfg))
             (config.TTL (config.JWT_ cfg)) = (tok, None))
  /\ (forall tok err,
        serviceuser.Login cfg t1 t2 username password db = (tok, Some err) -> tok = "").
Proof.
  unfold serviceuser.Login. simpl. unfold repouser.GetUserByUsername.
  destruct (pg.user_by_username db username) as [user|] eqn:Ef; simpl.
  - destruct (serviceuser.verifyPassword password (model.PasswordHash user)) eqn:Ev.
    { split; [discriminate|]. by intros tok err [= <- _]. }
    destruct (serviceuser.generateToken _ _ _ _ _) as [tok' [e|]] eqn:Eg.
    { split; [discriminate|]. by intros tok err [= <- _]. }
    split; [|discriminate]. intros tok [= <-]. exists user.
    split; [done|]. split; [|done]. by apply (find_username_eq (users db)).
  - split; [discriminate|]. by intros tok err [= <- _].
Qed.



(** X10.  A token never outlives its TTL: a token issued with the first
    clock reading [t1] is answered with [ErrExpiredToken] at every time
    from [t1] plus the TTL on (when the wire format reads the token back
    and the expiry second is not second 0 of the epoch, which the claims
    reader takes for no expiry). *)
Theorem issued_token_expires t1 t2 user secret ttl now :
  reads_back jwt.SigningMethodHS256 (serviceuser.tokenClaims t1 t2 user ttl) secret ->
  time.Unix (time.Add t1 ttl) <> 0 ->
  time.Add t1 ttl <= now ->
  exists tok,
    serviceuser.generateToken t1 t2 user secret ttl = (tok, None)
    /\ middleware.validateToken now tok secret
       = (uuid.Nil, "", Some (errorString ErrExpiredToken)).
Proof.
  intros (sstr & sig & p0 & p1 & p2 & valid & HS & Hsig & HU & Hp & HD) Hnz Hnow.
  exists (sstr +:+ "." +:+ jwt.EncodeSegment sig). split.
  - unfold serviceuser.generateToken, jwt.SignedString, jwt.NewWithClaims.
    cbn [jwt.Method jwt.Claims]. by rewrite HS, Hsig.
  - simpl in Hsig. injection Hsig as <-.
    eapply (expired_token_rejected now _ secret _ p0 p1 p2 jwt.SHA256
              (time.Unix (time.Add t1 ttl))); [exact HU|reflexivity| | |].
    + by rewrite HD, Hp.
    + simpl. unfold jwt.GetExpirationTime, jwt.parseNumericDate.
      rewrite tokenClaims_exp, Qfloor_Z.
      destruct (Qeq_bool _ _) eqn:Eq; [|done].
      exfalso. apply Hnz. apply Qeq_bool_iff in Eq.
      unfold Qeq in Eq. simpl in Eq. lia.
    + unfold time.OfUnix, time.Unix, time.Add, time.Second in *.
      pose proof (Z.mul_div_le (t1 + ttl) 1000000000 ltac:(lia)). lia.
Qed.

End Registry.

Section UserHandler.
Context `{bcrypt.Hasher} `{uuid.Codec}.


End UserHandler.

Section SampleRegistry.

#[local] Existing Instance sample.hasher.
#[local] Existing Instance sample.aliceWire.
#[local] Existing Instance sample.uuidCodec.

Lemma Register_twice_witness :
  serviceuser.Register "pepper" "alice" "viewer" "pw9" sample.aliceDatabase
  = ((uuid.Nil, Some (errorString ErrUserAlreadyExists)), sample.aliceDatabase).
Proof.
  apply (Register_twice "salt" "alice" "admin" "pw1" sample.emptyDatabase
           sample.aliceDatabase 1%N).
  reflexivity.
Defined.

Lemma Login_sound_witness :
  exists user,
    pg.user_by_username sample.aliceDatabase "alice" = Some user
    /\ model.Username user = "alice"
    /\ serviceuser.verifyPassword "pw1" (model.PasswordHash user) = None
    /\ serviceuser.generateToken sample.issuedAt sample.issuedAt user "s3cret"
         (3600 * time.Second) = (sample.aliceToken, None).
Proof.
  apply (Login_sound sample.cfg sample.issuedAt sample.issuedAt "alice" "pw1"
           sample.aliceDatabase).
  vm_compute. reflexivity.
Defined.


Lemma issued_token_expires_witness :
  exists tok,
    serviceuser.generateToken sample.issuedAt sample.issuedAt sample.alice "s3cret"
      (3600 * time.Second) = (tok, None)
    /\ middleware.validateToken sample.muchLater tok "s3cret"
       = (uuid.Nil, "", Some (errorString ErrExpiredToken)).
Proof.
  apply (issued_token_expires sample.issuedAt sample.issuedAt sample.alice "s3cret"
           (3600 * time.Second) sample.muchLater).
  - do 6 eexists. split; [reflexivity|]. split; [reflexivity|].
    split; [vm_compute; reflexivity|]. split; vm_compute; reflexivity.
  - vm_compute. discriminate.
  - vm_compute. discriminate.
Defined.


End SampleRegistry.


(** ** Items and their history *)

Lemma filter_snoc_false {A : Type} (p : A -> bool) (l : list A) (x : A) :
  p x = false -> List.filter p (l ++ [x]) = List.filter p l.
Proof. intros Hp. rewrite List.filter_app. simpl. rewrite Hp. apply app_nil_r. Qed.

Lemma find_filter_none (its : list model.Item.t) (id : uuid.UUID) :
  List.find (fun i => N.eqb (model.Item.ID i) id)
            (List.filter (fun i => negb (N.eqb (model.Item.ID i) id)) its) = None.
Proof.
  induction its as [|i its IH]; simpl; [done|].
  destruct (N.eqb (model.Item.ID i) id) eqn:E; simpl; [done|]. by rewrite E.
Qed.


Section Items.
Context `{uuid.Codec}.


Lemma columns_inv item price :
  repoitem.columns item = inr price ->
  pg.int4 (model.Item.Quantity item) = true
  /\ pg.numeric_12_2 (model.Item.Price item) = Some price.
Proof.
  unfold repoitem.columns.
  destruct (pg.int4 (model.Item.Quantity item)); simpl; [|discriminate].
  destruct (pg.numeric_12_2 (model.Item.Price item)); [|discriminate].
  by intros [= ->].
Qed.






(** X13.  A successful [DeleteItem] leaves no trace of the item: the row
    is gone, [GetItemByID] answers [ErrItemNotFound], and the history
    holds no row of the item any more: the rows of its earlier changes
    and the DELETE row the trigger has just written are removed by the
    cascade.  Rows of other items stay as they were. *)
Theorem DeleteItem_erases_history itemID (db db' : Database) :
  repoitem.DeleteItem itemID db = (None, db') ->
  items db' = List.filter (fun i => negb (N.eqb (model.Item.ID i) itemID)) (items db)
  /\ item_history db'
     = List.filter (fun h => negb (N.eqb (model.ItemHistory.ItemID h) itemID))
                   (item_history db)
  /\ (forall h, In h (item_history db') -> model.ItemHistory.ItemID h <> itemID)
  /\ users db' = users db
  /\ repoitem.GetItemByID itemID db' = inl (errorString ErrItemNotFound).
Proof.
  unfold repoitem.DeleteItem, triggers.log_item_delete.
  destruct (repoitem.item_by_id db itemID) as [OLD|] eqn:Ef; [|discriminate].
  apply find_item_id in Ef as [HO _].
  destruct (triggers.insert_history _ _ _ _ _) as [e|db1] eqn:E; [discriminate|].
  apply insert_history_ok in E as (Eu & Eit & h & Eh & Hitem & _).
  intros [= <-]. cbn [items item_history users pg.with_items pg.with_item_history].
  rewrite Eit, Eh, Eu.
  assert (Hh : (fun h => negb (N.eqb (model.ItemHistory.ItemID h) itemID)) h = false).
  { cbv beta. by rewrite Hitem, HO, N.eqb_refl. }
  rewrite (filter_snoc_false
             (fun h => negb (N.eqb (model.ItemHistory.ItemID h) itemID)) _ h Hh).
  split; [done|]. split; [done|]. split; [|split; [done|]].
  - intros h' Hin. apply filter_In in Hin as [_ Hne].
    apply negb_true_iff in Hne. by apply N.eqb_neq in Hne.
  - unfold repoitem.GetItemByID, repoitem.item_by_id.
    cbn [items pg.with_items pg.with_item_history]. try rewrite Eit.
    by rewrite find_filter_none.
Qed.


Lemma find_update (l : list model.Item.t) (id : uuid.UUID) (OLD NEW : model.Item.t) :
  List.find (fun i => N.eqb (model.Item.ID i) id) l = Some OLD ->
  model.Item.ID NEW = id ->
  List.find (fun i => N.eqb (model.Item.ID i) id)
            (map (fun i => if N.eqb (model.Item.ID i) id then NEW else i) l)
  = Some NEW.
Proof.
  intros Hf HN. induction l as [|i l IH]; simpl in *; [discriminate|].
  destruct (N.eqb (model.Item.ID i) id) eqn:Ei.
  - by rewrite HN, N.eqb_refl.
  - rewrite Ei. by apply IH.
Qed.

(** X15.  A successful [UpdateItem] had a quantity in the range of INT and
    a price that fits NUMERIC(12, 2), and changes name, description,
    quantity and price of the row of that id and nothing else of the
    table: the row takes the quantity as given and the price as the column
    rounds it; the ids of the items, in order, and the creation time of
    the row are as before; [GetItemByID] reads the new row back; and the
    history grows by one UPDATE row that holds the row before and the row
    after the change and is attributed to the user of the session the
    statement ran on. *)
Theorem UpdateItem_row item (db db' : Database) :
  repoitem.UpdateItem item db = (None, db') ->
  exists OLD NEW h price,
    pg.int4 (model.Item.Quantity item) = true
    /\ pg.numeric_12_2 (model.Item.Price item) = Some price
    /\ repoitem.item_by_id db (model.Item.ID item) = Some OLD
    /\ repoitem.GetItemByID (model.Item.ID item) db' = inr NEW
    /\ model.Item.ID NEW = model.Item.ID item
    /\ model.Item.Name NEW = model.Item.Name item
    /\ model.Item.Description NEW = model.Item.Description item
    /\ model.Item.Quantity NEW = model.Item.Quantity item
    /\ model.Item.Price NEW = price
    /\ model.Item.CreatedAt NEW = model.Item.CreatedAt OLD
    /\ map model.Item.ID (items db') = map model.Item.ID (items db)
    /\ item_history db' = item_history db ++ [h]
    /\ model.ItemHistory.Action h = model.ActionUpdate
    /\ model.ItemHistory.OldData h = Some OLD
    /\ model.ItemHistory.NewData h = Some NEW
    /\ triggers.current_setting_uuid db = inr (model.ItemHistory.ChangedBy h).
Proof.
  unfold repoitem.UpdateItem, triggers.log_item_update.
  destruct (repoitem.columns item) as [e|price] eqn:Ec; [discriminate|].
  destruct (columns_inv _ _ Ec) as [Hq Hp].
  destruct (repoitem.item_by_id db (model.Item.ID item)) as [OLD|] eqn:Ef; [|discriminate].
  pose proof (find_item_id _ _ _ Ef) as [HO Hin].
  destruct (triggers.insert_history _ _ _ _ _) as [e|db1] eqn:E; [discriminate|].
  apply insert_history_ok in E
    as (Eu & Eit & h & Eh & Hitem & Hact & Hold & Hnew & _ & Hset & _).
  intros [= <-].
  set (NEW := {| model.Item.ID := model.Item.ID OLD |}) in *.
  exists OLD, NEW, h, price. split; [done|]. split; [done|]. split; [done|].
  cbn [items pg.with_items] in Eit.
  split.
  { unfold repoitem.GetItemByID, repoitem.item_by_id. rewrite Eit.
    by rewrite (find_update _ _ OLD NEW Ef HO). }
  cbn [model.Item.ID model.Item.Name model.Item.Description model.Item.Quantity
       model.Item.Price model.Item.CreatedAt].
  repeat (split; [done|]).
  split; [rewrite Eit; by apply map_ID_update|].
  split; [exact Eh|]. split; [exact Hact|]. split; [exact Hold|].
  split; [exact Hnew|]. exact Hset.
Qed.

End Items.

Section SampleStock.

#[local] Existing Instance sample.uuidCodec.


Lemma DeleteItem_erases_history_witness :
  items (repoitem.DeleteItem 2%N stock.database).2 = []
  /\ item_history (repoitem.DeleteItem 2%N stock.database).2 = []
  /\ (forall h, In h (item_history (repoitem.DeleteItem 2%N stock.database).2) ->
        model.ItemHistory.ItemID h <> 2%N)
  /\ users (repoitem.DeleteItem 2%N stock.database).2 = users stock.database
  /\ repoitem.GetItemByID 2%N (repoitem.DeleteItem 2%N stock.database).2
     = inl (errorString ErrItemNotFound).
Proof.
  apply (DeleteItem_erases_history 2%N stock.database
           (repoitem.DeleteItem 2%N stock.database).2).
  vm_compute. reflexivity.
Defined.


Lemma UpdateItem_row_witness :
  exists OLD NEW h price,
    pg.int4 7 = true
    /\ pg.numeric_12_2 (1995 # 1000) = Some price
    /\ repoitem.item_by_id stock.database 2%N = Some OLD
    /\ repoitem.GetItemByID 2%N (repoitem.UpdateItem stock.nut stock.database).2 = inr NEW
    /\ model.Item.ID NEW = 2%N
    /\ model.Item.Name NEW = "nut"
    /\ model.Item.Description NEW = "M4"
    /\ model.Item.Quantity NEW = 7
    /\ model.Item.Price NEW = price
    /\ model.Item.CreatedAt NEW = model.Item.CreatedAt OLD
    /\ map model.Item.ID (items (repoitem.UpdateItem stock.nut stock.database).2)
       = map model.Item.ID (items stock.database)
    /\ item_history (repoitem.UpdateItem stock.nut stock.database).2
       = item_history stock.database ++ [h]
    /\ model.ItemHistory.Action h = model.ActionUpdate
    /\ model.ItemHistory.OldData h = Some OLD
    /\ model.ItemHistory.NewData h = Some NEW
    /\ triggers.current_setting_uuid stock.database = inr (model.ItemHistory.ChangedBy h).
Proof.
  apply (UpdateItem_row stock.nut stock.database
           (repoitem.UpdateItem stock.nut stock.database).2).
  vm_compute. reflexivity.
Defined.

End SampleStock.

(** ** The routes of the items *)

Section Chains.
Context `{jwt.Wire} `{uuid.Codec}.

Lemma Get_bound_userID c userID role :
  gin.Get (bound c userID role) "userID" = Some (gin.any_UUID userID).
Proof.
  unfold gin.Get, bound. simpl. rewrite lookup_insert_ne; [|done].
  by rewrite lookup_insert_eq.
Qed.

Lemma accepted_unique now secret c u1 r1 u2 r2 :
  accepted now secret c u1 r1 -> accepted now secret c u2 r2 -> u1 = u2 /\ r1 = r2.
Proof.
  intros (t1 & Hs1 & Hv1) (t2 & Hs2 & Hv2). rewrite Hs1 in Hs2.
  injection Hs2 as <-. rewrite Hv1 in Hv2. by injection Hv2 as <- <-.
Qed.

Lemma Auth_accepted now secret ttl c userID role :
  accepted now secret c userID role ->
  middleware.Auth now secret ttl c = bound c userID role.
Proof.
  intros (tok & Hs & Hv). unfold middleware.Auth.
  destruct (String.eqb (gin.GetHeader c "Authorization") "") eqn:E.
  { apply String.eqb_eq in E. rewrite E in Hs. discriminate. }
  rewrite Hs. simpl. by rewrite Hv.
Qed.

Lemma RequireRole_bound_in roles c userID role :
  role ∈ roles ->
  middleware.RequireRole roles (bound c userID role) = bound c userID role.
Proof.
  intros Hin. unfold middleware.RequireRole, gin.Get, bound. simpl.
  rewrite lookup_insert_eq, allowedRoles_lookup. by rewrite decide_True.
Qed.

Lemma RequireRole_bound_out roles c userID role :
  role ∉ roles ->
  middleware.RequireRole roles (bound c userID role)
  = response.FailAbort (bound c userID role) http.StatusForbidden
      (errorString ErrAccessDenied).
Proof.
  intros Hout. unfold middleware.RequireRole, gin.Get, bound. simpl.
  rewrite lookup_insert_eq, allowedRoles_lookup. by rewrite decide_False.
Qed.

(** An accepted token with a listed role reaches the handler. *)
Lemma chain_accept {W : Type} now secret ttl (roles : list string)
    (h : gin.HandlerFunc W) (c : gin.Context) (w : W) userID role :
  gin.IsAborted c = false ->
  accepted now secret c userID role -> role ∈ roles ->
  gin.serve [gin.lift (middleware.Auth now secret ttl);
             gin.lift (middleware.RequireRole roles); h] c w
  = h (bound c userID role) w.
Proof.
  intros Hc Hacc Hin.
  rewrite serve_pass; rewrite (Auth_accepted _ _ ttl _ _ _ Hacc); [|exact Hc].
  rewrite serve_pass; rewrite (RequireRole_bound_in _ _ _ _ Hin); [|exact Hc].
  apply serve_one.
Qed.

(** An accepted token with a role that is not listed stops at the gate. *)
Lemma chain_deny {W : Type} now secret ttl (roles : list string)
    (h : gin.HandlerFunc W) (c : gin.Context) (w : W) userID role :
  gin.IsAborted c = false ->
  accepted now secret c userID role -> role ∉ roles ->
  gin.serve [gin.lift (middleware.Auth now secret ttl);
             gin.lift (middleware.RequireRole roles); h] c w
  = (response.FailAbort (bound c userID role) http.StatusForbidden
       (errorString ErrAccessDenied), w).
Proof.
  intros Hc Hacc Hout.
  rewrite serve_pass; rewrite (Auth_accepted _ _ ttl _ _ _ Hacc); [|exact Hc].
  rewrite serve_abort; rewrite (RequireRole_bound_out _ _ _ _ Hout); [|reflexivity].
  reflexivity.
Qed.

(** Without an accepted token with a listed role, the chain stops before
    the handler. *)
Lemma chain_reject {W : Type} now secret ttl (roles : list string)
    (h : gin.HandlerFunc W) (c : gin.Context) (w : W) :
  gin.IsAborted c = false ->
  (forall userID role, accepted now secret c userID role -> role ∉ roles) ->
  exists c',
    gin.serve [gin.lift (middleware.Auth now secret ttl);
               gin.lift (middleware.RequireRole roles); h] c w = (c', w)
    /\ gin.IsAborted c' = true
    /\ (lastStatus c' = Some 401 \/ lastStatus c' = Some 403).
Proof.
  intros Hc Hno.
  destruct (Auth_cases now secret ttl c)
    as [(tok & userID & role & Hs & Hv & HA)|(err & HA & _)].
  - assert (Hacc : accepted now secret c userID role) by by exists tok.
    rewrite (chain_deny _ _ _ _ _ _ _ _ _ Hc Hacc (Hno _ _ Hacc)).
    eexists. split; [reflexivity|]. split; [reflexivity|].
    right. unfold lastStatus. simpl. by rewrite last_snoc.
  - eexists. rewrite serve_abort; rewrite HA; [|reflexivity].
    split; [reflexivity|]. split; [reflexivity|].
    left. unfold lastStatus. simpl. by rewrite last_snoc.
Qed.

End Chains.


Section Routes.
Context {W : Type} `{itemhandler.service W} `{itemhandler.Decoder}
        `{jwt.Wire} `{uuid.Codec}.

(** X16.  The routes that change items answer no request that lacks the
    role: unless the header carries a token that [validateToken] accepts
    with the role admin, DELETE /items/:id stops before its handler, with
    the state behind the service untouched and a 401 or a 403 as the last
    response; unless it carries one with the role admin or manager, so do
    POST /items and PUT /items/:id, whatever the body of the request. *)
Theorem mutating_routes_need_role cfg now id (c : gin.Context) (w : W) :
  gin.IsAborted c = false ->
  ((forall userID role,
       accepted now (config.Secret (config.JWT_ cfg)) c userID role -> role <> "admin") ->
   exists c',
     gin.serve (router.DELETE_items_id cfg now id) c w = (c', w)
     /\ gin.IsAborted c' = true
     /\ (lastStatus c' = Some 401 \/ lastStatus c' = Some 403))
  /\ ((forall userID role,
          accepted now (config.Secret (config.JWT_ cfg)) c userID role ->
          role <> "admin" /\ role <> "manager") ->
      (exists c',
          gin.serve (router.POST_items cfg now) c w = (c', w)
          /\ gin.IsAborted c' = true
          /\ (lastStatus c' = Some 401 \/ lastStatus c' = Some 403))
      /\ (exists c',
             gin.serve (router.PUT_items_id cfg now id) c w = (c', w)
             /\ gin.IsAborted c' = true
             /\ (lastStatus c' = Some 401 \/ lastStatus c' = Some 403))).
Proof.
  intros Hc. split.
  - intros Hno. apply chain_reject; [exact Hc|].
    intros u r Hacc Hin. apply list_elem_of_singleton in Hin.
    by apply (Hno u r Hacc).
  - intros Hno.
    assert (Hout : forall u r,
               accepted now (config.Secret (config.JWT_ cfg)) c u r ->
               r ∉ ["admin"; "manager"]).
    { intros u r Hacc Hin. destruct (Hno u r Hacc) as [Ha Hm].
      apply elem_of_cons in Hin as [E|Hin]; [done|].
      by apply list_elem_of_singleton in Hin. }
    split; apply chain_reject; assumption.
Qed.

(** X17.  On the routes that change items the acting user handed to the
    service is the user of the token.  With an accepted token and an id
    that parses: for an admin, DELETE /items/:id leaves the state that the
    [Delete] of the service leaves for that user and that item; for a
    manager it answers 403 and the service is not called; for either, PUT
    /items/:id and POST /items with a body that binds and validates leave
    the state of [Update] and [Create] of the service for that user. *)
Theorem routes_pass_token_user cfg now id (c : gin.Context) (w : W) userID role itemID :
  gin.IsAborted c = false ->
  accepted now (config.Secret (config.JWT_ cfg)) c userID role ->
  uuid.Parse id = (itemID, None) ->
  (role = "admin" ->
   (gin.serve (router.DELETE_items_id cfg now id) c w).2
   = (itemhandler.Delete userID itemID w).2)
  /\ (role = "manager" ->
      gin.serve (router.DELETE_items_id cfg now id) c w
      = (response.FailAbort (bound c userID role) http.StatusForbidden
           (errorString ErrAccessDenied), w))
  /\ (role = "admin" \/ role = "manager" ->
      (forall req,
          itemhandler.bindUpdateRequest (bound c userID role) = inr req ->
          itemhandler.validateUpdateRequest req = None ->
          (gin.serve (router.PUT_items_id cfg now id) c w).2
          = (itemhandler.Update userID itemID (itemhandler.UpdateRequest.Name req)
               (itemhandler.UpdateRequest.Description req)
               (itemhandler.UpdateRequest.Quantity req)
               (itemhandler.UpdateRequest.Price req) w).2)
      /\ (forall req,
             itemhandler.bindCreateRequest (bound c userID role) = inr req ->
             itemhandler.validateCreateRequest req = None ->
             (gin.serve (router.POST_items cfg now) c w).2
             = (itemhandler.Create userID (itemhandler.Name req)
                  (itemhandler.Description req) (itemhandler.Quantity req)
                  (itemhandler.Price req) w).2)).
Proof.
  intros Hc Hacc HP. split; [|split].
  - intros ->. unfold router.DELETE_items_id, router.auth.
    rewrite (chain_accept now _ _ ["admin"] (itemhandler.Delete_ id) c w userID "admin"
               Hc Hacc) by (apply elem_of_cons; by left).
    unfold itemhandler.Delete_, itemhandler.getUserAndItemIDFromContext.
    rewrite HP, Get_bound_userID.
    destruct (itemhandler.Delete userID itemID w) as [[err|] w']; [|done].
    by destruct (errors.Is err ErrItemNotFound).
  - intros ->. unfold router.DELETE_items_id, router.auth.
    apply chain_deny; [exact Hc|exact Hacc|].
    intros Hin. apply list_elem_of_singleton in Hin. discriminate.
  - intros Hrole.
    assert (Hin : role ∈ ["admin"; "manager"]).
    { destruct Hrole as [-> | ->]; [apply elem_of_cons; by left|].
      apply elem_of_cons; right. by apply list_elem_of_singleton. }
    split.
    + intros req Hb Hv. unfold router.PUT_items_id, router.auth.
      rewrite (chain_accept now _ _ ["admin"; "manager"] (itemhandler.Update_ id) c w
                 userID role Hc Hacc Hin).
      unfold itemhandler.Update_, itemhandler.getUserAndItemIDFromContext.
      rewrite Hb, Hv, HP, Get_bound_userID.
      destruct (itemhandler.Update _ _ _ _ _ _ w) as [[err|] w']; [|done].
      by destruct (errors.Is err ErrItemNotFound).
    + intros req Hb Hv. unfold router.POST_items, router.auth.
      rewrite (chain_accept now _ _ ["admin"; "manager"] itemhandler.Create_ c w
                 userID role Hc Hacc Hin).
      unfold itemhandler.Create_.
      rewrite Hb, Hv, Get_bound_userID.
      by destruct (itemhandler.Create _ _ _ _ _ w) as [[id' [err|]] w'].
Qed.


End Routes.

Section SampleRoutes.

#[local] Existing Instance sample.aliceWire.
#[local] Existing Instance sample.uuidCodec.
#[local] Existing Instance recorder.service.
#[local] Existing Instance recorder.decoder.

Lemma mutating_routes_need_role_witness :
  exists c',
    gin.serve (router.DELETE_items_id sample.cfg sample.soonAfter
                 "00000000-0000-0000-0000-000000000002")
              (sample.bearer sample.forgedToken) ([] : list recorder.call) = (c', [])
    /\ gin.IsAborted c' = true
    /\ (lastStatus c' = Some 401 \/ lastStatus c' = Some 403).
Proof.
  destruct (mutating_routes_need_role sample.cfg sample.soonAfter
              "00000000-0000-0000-0000-000000000002"
              (sample.bearer sample.forgedToken) ([] : list recorder.call) eq_refl)
    as [Hdel _].
  apply Hdel. intros userID role (tok & Hs & Hv).
  vm_compute in Hs. injection Hs as <-. vm_compute in Hv. discriminate Hv.
Defined.

Lemma routes_pass_token_user_witness :
  (gin.serve (router.DELETE_items_id sample.cfg sample.soonAfter
                "00000000-0000-0000-0000-000000000002")
             recorder.nutRequest ([] : list recorder.call)).2
  = [recorder.deleted 1%N 2%N].
Proof.
  destruct (routes_pass_token_user sample.cfg sample.soonAfter
              "00000000-0000-0000-0000-000000000002"
              recorder.nutRequest ([] : list recorder.call) 1%N "admin" 2%N eq_refl)
    as [Hdel _].
  - exists sample.aliceToken. split; vm_compute; reflexivity.
  - vm_compute. reflexivity.
  - exact (Hdel eq_refl).
Defined.

End SampleRoutes.
